(** * Epic Forum: login lockout, password reset and chat broadcast

    A shallow embedding of the handlers of [routes/auth.js] (login,
    forgot-password, reset-password) and of the Socket.IO handlers of
    [server.js] (join-chat, chat-message, disconnect), over the tables
    declared in [database.js], followed by the properties of the
    specification that concern them. *)

From Stdlib Require Import ZArith Ascii.
From Stdlib Require String.
From stdpp Require Import base decidable option list strings pretty gmap.

Local Open Scope Z_scope.

(** ** JavaScript values

    A request field that was not sent is [None]; one sent empty is
    [Some ""].  Both are falsy, which is all the handlers ask ([!x]).
    Strings hold their text in UTF-8, one [ascii] for each byte. *)

Definition truthy (v : option string) : bool :=
  match v with
  | Some s => negb (String.eqb s "")
  | None => false
  end.

(** [a || b] where [b] is a string literal or another field. *)
Definition js_or (a : option string) (b : string) : string :=
  match a with
  | Some s => if String.eqb s "" then b else s
  | None => b
  end.

Definition js_or_opt (a b : option string) : option string :=
  if truthy a then a else b.

(** [s.length] counts UTF-16 code units, not bytes: one for a code
    point of the basic plane, which UTF-8 writes in one, two or three
    bytes, and two for a code point beyond it, which UTF-8 writes in
    four bytes of which the first is [0xF0] or above.  The bytes
    [0x80] to [0xBF] continue a code point and count for nothing. *)
Definition utf16_units (byte : ascii) : nat :=
  let n := N_of_ascii byte in
  if (n <? 128)%N then 1%nat
  else if (n <? 192)%N then 0%nat
  else if (n <? 240)%N then 1%nat
  else 2%nat.

Fixpoint js_length (s : string) : nat :=
  match s with
  | EmptyString => 0%nat
  | String byte s => (utf16_units byte + js_length s)%nat
  end.

(** A number field: [undefined], or a number of which [0] is falsy. *)
Definition truthy_num (v : option Z) : bool :=
  match v with
  | Some n => negb (n =? 0)
  | None => false
  end.

(** ** Clock renderings

    Instants are milliseconds since the epoch ([Date.now()]).  The two
    text renderings the code stores and compares are
    [Date.prototype.toISOString] and SQLite's [datetime('now')] /
    [CURRENT_TIMESTAMP], both in UTC. *)

Module Clock.

Definition digit (d : Z) : ascii := ascii_of_nat (48 + Z.to_nat (d mod 10)).

Definition pad2 (n : Z) (k : string) : string :=
  String (digit (n / 10)) (String (digit n) k).

Definition pad3 (n : Z) (k : string) : string :=
  String (digit (n / 100)) (pad2 n k).

Definition pad4 (n : Z) (k : string) : string :=
  String (digit (n / 1000)) (pad3 n k).

(** Proleptic Gregorian date of a day count since 1970-01-01. *)
Definition civil_from_days (days : Z) : Z * Z * Z :=
  let z := days + 719468 in
  let era := z / 146097 in
  let doe := z - era * 146097 in
  let yoe := (doe - doe / 1460 + doe / 36524 - doe / 146096) / 365 in
  let doy := doe - (365 * yoe + yoe / 4 - yoe / 100) in
  let mp := (5 * doy + 2) / 153 in
  let d := doy - (153 * mp + 2) / 5 + 1 in
  let m := if mp <? 10 then mp + 3 else mp - 9 in
  let y := yoe + era * 400 + (if m <=? 2 then 1 else 0) in
  (y, m, d).

Definition ms_per_day : Z := 86400000.

(** [new Date(ms).toISOString()], for the years 0000 to 9999. *)
Definition toISOString (ms : Z) : string :=
  let '(y, m, d) := civil_from_days (ms / ms_per_day) in
  let r := ms mod ms_per_day in
  pad4 y (String "-" (pad2 m (String "-" (pad2 d (String "T"
    (pad2 (r / 3600000) (String ":" (pad2 (r / 60000 mod 60) (String ":"
      (pad2 (r / 1000 mod 60) (String "." (pad3 (r mod 1000) "Z")))))))))))).

(** SQLite [datetime('now')] and [CURRENT_TIMESTAMP] at instant [ms]. *)
Definition datetime (ms : Z) : string :=
  let '(y, m, d) := civil_from_days (ms / ms_per_day) in
  let r := ms mod ms_per_day in
  pad4 y (String "-" (pad2 m (String "-" (pad2 d (String " "
    (pad2 (r / 3600000) (String ":" (pad2 (r / 60000 mod 60) (String ":"
      (pad2 (r / 1000 mod 60) "")))))))))).

End Clock.

(** ** SQL statements over lists of rows

    A table is the list of its rows in insertion order.  [.get()] of a
    [SELECT ... WHERE P] is the first row that satisfies [P]. *)

Section Sql.
Context {A : Type} (P : A → Prop) `{!∀ r, Decision (P r)}.

Definition sql_get (rows : list A) : option A := head (filter P rows).

Definition sql_update (f : A → A) (rows : list A) : list A :=
  (λ r, if decide (P r) then f r else r) <$> rows.

Definition sql_delete (rows : list A) : list A :=
  filter (λ r, ¬ P r) rows.
End Sql.

(** A table with an [INTEGER PRIMARY KEY AUTOINCREMENT] column: its rows
    and its [sqlite_sequence] entry, the largest row id handed out. *)
Record table (A : Type) := mk_table { rows : list A; seq : Z }.
Arguments mk_table {A} _ _.
Arguments rows {A} _.
Arguments seq {A} _.

Definition next_rowid {A} (rowid : A → Z) (t : table A) : Z :=
  foldr Z.max (seq t) (rowid <$> rows t) + 1.

(** ** Tables of [database.js]

    Columns that no modelled handler reads or writes ([bio],
    [created_at] and [updated_at] of [users], [user_agent] of
    [login_attempts]) are left out.  [lockout_until] holds the instant
    whose ISO rendering the column stores and [new Date(...)] reads back. *)

Record user := mk_user {
  u_id : Z;
  u_username : string;
  u_password_hash : string;
  u_email : string;
  u_display_name : string;
  u_profile_color : option string;
  u_profile_avatar : option string;
  u_is_locked : bool;
  u_lockout_until : option Z;
  u_failed_login_attempts : Z;
  u_last_login : option string
}.

Record session_row := mk_session {
  s_id : string;
  s_user_id : Z;
  s_session_data : string;
  s_expires_at : string
}.

Record login_attempt := mk_attempt {
  la_id : Z;
  la_username : string;
  la_ip_address : string;
  la_success : bool;
  la_failure_reason : option string;
  la_attempt_time : string
}.

Record reset_token := mk_reset_token {
  prt_id : Z;
  prt_user_id : Z;
  prt_token : string;
  prt_expires_at : string;
  prt_used : bool;
  prt_created_at : string
}.

Record chat_message := mk_chat_message {
  cm_id : Z;
  cm_user_id : Z;
  cm_message : string;
  cm_created_at : string
}.

Record database := mk_db {
  users : list user;
  sessions : list session_row;
  login_attempts : table login_attempt;
  password_reset_tokens : table reset_token;
  chat_messages : table chat_message
}.

Definition with_users (us : list user) (db : database) : database :=
  mk_db us (sessions db) (login_attempts db) (password_reset_tokens db)
    (chat_messages db).

Definition with_sessions (ss : list session_row) (db : database) : database :=
  mk_db (users db) ss (login_attempts db) (password_reset_tokens db)
    (chat_messages db).

Definition with_login_attempts (t : table login_attempt) (db : database)
  : database :=
  mk_db (users db) (sessions db) t (password_reset_tokens db)
    (chat_messages db).

Definition with_password_reset_tokens (t : table reset_token) (db : database)
  : database :=
  mk_db (users db) (sessions db) (login_attempts db) t (chat_messages db).

Definition with_chat_messages (t : table chat_message) (db : database)
  : database :=
  mk_db (users db) (sessions db) (login_attempts db)
    (password_reset_tokens db) t.

(** Row updates used by the [UPDATE users SET ...] statements. *)
Definition set_lock (locked : bool) (until : option Z) (u : user) : user :=
  mk_user (u_id u) (u_username u) (u_password_hash u) (u_email u)
    (u_display_name u) (u_profile_color u) (u_profile_avatar u)
    locked until (u_failed_login_attempts u) (u_last_login u).

Definition set_failed_login_attempts (n : Z) (u : user) : user :=
  mk_user (u_id u) (u_username u) (u_password_hash u) (u_email u)
    (u_display_name u) (u_profile_color u) (u_profile_avatar u)
    (u_is_locked u) (u_lockout_until u) n (u_last_login u).

Definition set_last_login (t : option string) (u : user) : user :=
  mk_user (u_id u) (u_username u) (u_password_hash u) (u_email u)
    (u_display_name u) (u_profile_color u) (u_profile_avatar u)
    (u_is_locked u) (u_lockout_until u) (u_failed_login_attempts u) t.

Definition set_password_hash (h : string) (u : user) : user :=
  mk_user (u_id u) (u_username u) h (u_email u)
    (u_display_name u) (u_profile_color u) (u_profile_avatar u)
    (u_is_locked u) (u_lockout_until u) (u_failed_login_attempts u)
    (u_last_login u).

(** [UPDATE users SET ... WHERE id = ?] *)
Definition update_user (id : Z) (f : user → user) (db : database) : database :=
  with_users (sql_update (λ u, u_id u = id) f (users db)) db.

(** ** External modules

    [modules/password-utils] (bcrypt) is not among the sources; its two
    functions used by the handlers are taken as an interface, in which
    the salt that hashing draws is left out.  So is nodemailer's
    [transporter.sendMail], which answers with a message id or throws. *)

Class PasswordUtils := {
  hashPassword : string → string;
  comparePassword : string → string → bool
}.

Record mail_options := mk_mail {
  mail_to : string;
  mail_subject : string;
  mail_reset_url : string;
  mail_expiration : Z
}.

Class Transporter := {
  sendMail : mail_options → option string
}.

Record email_result := mk_email_result {
  er_success : bool;
  er_messageId : option string
}.

(** [modules/sendEmail.js]: the failure of the transport is caught and
    reported in the result. *)
Definition sendPasswordResetEmail `{Transporter}
    (recipientEmail resetToken : string) (expirationTime : Z) : email_result :=
  let resetUrl :=
    "https://goob.site/api/auth/reset-password?token=" +:+ resetToken in
  match sendMail (mk_mail recipientEmail
                    "🔒 Password Reset Request - Epic Forum" resetUrl
                    expirationTime) with
  | Some messageId => mk_email_result true (Some messageId)
  | None => mk_email_result false None
  end.

(** ** routes/auth.js: login

    [logLoginAttempt], [handleFailedLogin] and [login] follow the code
    on a run in which every statement returns; [login_handler] below
    follows the handler with its [catch] blocks, when a statement
    throws. *)

Definition logLoginAttempt (username ipAddress : string) (success : bool)
    (failureReason : option string) (now : Z) (db : database) : database :=
  let t := login_attempts db in
  let i := next_rowid la_id t in
  with_login_attempts
    (mk_table
       (rows t ++ [mk_attempt i username ipAddress success failureReason
                     (Clock.datetime now)])
       i)
    db.

Definition handleFailedLogin (userId : Z) (username ipAddress : string)
    (now : Z) (db : database) : database :=
  let db1 :=
    update_user userId
      (λ u, set_failed_login_attempts (u_failed_login_attempts u + 1) u) db in
  let user := sql_get (λ u, u_id u = userId) (users db1) in
  match user with
  | Some user =>
      if 5 <=? u_failed_login_attempts user then
        let lockoutUntil := now + 15 * 60 * 1000 in
        let db2 := update_user userId (set_lock true (Some lockoutUntil)) db1 in
        logLoginAttempt username ipAddress false
          (Some "account_locked_after_attempts") now db2
      else
        logLoginAttempt username ipAddress false (Some "invalid_password")
          now db1
  | None =>
      logLoginAttempt username ipAddress false (Some "invalid_password")
        now db1
  end.

(** [Math.ceil(a / b)] for a positive [b]. *)
Definition ceil_div (a b : Z) : Z := - ((- a) / b).

Record login_request := mk_login_request {
  body_username : option string;
  body_password : option string;
  req_ip : option string;
  req_remoteAddress : option string
}.

(** The handler reads the clock when it tests the lock, and again after
    the password comparison it awaits has settled. *)
Record clock := mk_clock { at_request : Z; at_verdict : Z }.

Record session_data := mk_session_data {
  sess_userId : Z;
  sess_username : string;
  sess_displayName : string;
  sess_isLoggedIn : bool
}.

Inductive login_response :=
  | RedirectLoginError (error : string)
      (* /api/auth/login?error=<error> *)
  | RedirectLoginSuccess (session : session_data) (name : string).
      (* /public/login-success.html?username=<name> *)

Definition login `{PasswordUtils} (clk : clock) (req : login_request)
    (db : database) : database * login_response :=
  let clientIp := js_or (req_ip req) (js_or (req_remoteAddress req) "127.0.0.1") in
  if negb (truthy (body_username req)) || negb (truthy (body_password req)) then
    (logLoginAttempt (js_or (body_username req) "") clientIp false
       (Some "missing_credentials") (at_request clk) db,
     RedirectLoginError "Username and password are required")
  else
    (* both fields are present from here on *)
    let username := js_or (body_username req) "" in
    let password := js_or (body_password req) "" in
    match sql_get (λ u, u_username u = username) (users db) with
    | None =>
        (logLoginAttempt username clientIp false (Some "user_not_found")
           (at_request clk) db,
         RedirectLoginError "Invalid username or password")
    | Some user =>
        let verdict (db : database) :=
          let passwordMatch := comparePassword password (u_password_hash user) in
          if negb passwordMatch then
            (handleFailedLogin (u_id user) username clientIp (at_verdict clk) db,
             RedirectLoginError "Invalid username or password")
          else
            let db1 :=
              update_user (u_id user)
                (λ u, set_lock false None
                        (set_failed_login_attempts 0
                           (set_last_login
                              (Some (Clock.datetime (at_verdict clk))) u)))
                db in
            (logLoginAttempt username clientIp true (Some "success")
               (at_verdict clk) db1,
             RedirectLoginSuccess
               (mk_session_data (u_id user) (u_username user)
                  (u_display_name user) true)
               (js_or (Some (u_display_name user)) (u_username user))) in
        match u_is_locked user, u_lockout_until user with
        | true, Some lockoutEnd =>
            let now := at_request clk in
            if now <? lockoutEnd then
              let db1 :=
                logLoginAttempt username clientIp false (Some "account_locked")
                  now db in
              let remainingMinutes := ceil_div (lockoutEnd - now) (1000 * 60) in
              (db1,
               RedirectLoginError
                 ("Account is locked. Try again in " +:+ pretty remainingMinutes
                    +:+ " minutes."))
            else
              verdict
                (update_user (u_id user)
                   (λ u, set_lock false None (set_failed_login_attempts 0 u))
                   db)
        | _, _ => verdict db
        end
    end.

(** ** routes/auth.js: forgot-password and reset-password *)

Record json_response := mk_json {
  status : Z;
  json_success : bool;
  json_message : string
}.

(** [INSERT OR REPLACE INTO password_reset_tokens (user_id, token,
    expires_at, created_at)]: the rows that clash with the new one on a
    uniqueness constraint of the table, which are the primary key [id]
    and the [UNIQUE] column [token], are deleted first. *)
Definition insert_or_replace_token (user_id : Z) (token expires_at : string)
    (created_at : string) (t : table reset_token) : table reset_token :=
  let i := next_rowid prt_id t in
  mk_table
    (sql_delete (λ r, prt_id r = i ∨ prt_token r = token) (rows t)
       ++ [mk_reset_token i user_id token expires_at false created_at])
    i.

(** [randomHex] is the value of [crypto.randomBytes(32).toString('hex')]. *)
Definition forgot_password `{Transporter} (now : Z) (randomHex : string)
    (body_email : option string) (db : database) : database * json_response :=
  if negb (truthy body_email) then
    (db, mk_json 400 false "Email is required")
  else
    let email := js_or body_email "" in
    match sql_get (λ u, u_email u = email) (users db) with
    | None =>
        (db, mk_json 200 true
               "If an account with that email exists, a password reset link has been sent.")
    | Some user =>
        let resetToken := randomHex in
        let expirationTime := now + 3600000 in
        let db1 :=
          with_password_reset_tokens
            (insert_or_replace_token (u_id user) resetToken
               (Clock.toISOString expirationTime) (Clock.datetime now)
               (password_reset_tokens db))
            db in
        let emailResult := sendPasswordResetEmail email resetToken expirationTime in
        if er_success emailResult then
          (db1, mk_json 200 true
                  "If an account with that email exists, a password reset link has been sent.")
        else
          (db1, mk_json 500 false
                  "Error sending reset email. Please try again later.")
    end.

Record reset_body := mk_reset_body {
  body_token : option string;
  body_new_password : option string;
  body_confirmPassword : option string
}.

Inductive reset_response :=
  | RenderResetPassword (token : option string) (error : option string)
      (tokenExpired : bool)
  | RedirectTo (location : string).

(** The [WHERE] clause of the token lookup: SQLite compares the stored
    ISO text with the text of [datetime('now')], byte by byte; the [JOIN]
    keeps the rows whose user exists. *)
Definition token_usable (db : database) (now : Z) (token : string)
    (r : reset_token) : Prop :=
  prt_token r = token
  ∧ String.ltb (Clock.datetime now) (prt_expires_at r) = true
  ∧ is_Some (sql_get (λ u, u_id u = prt_user_id r) (users db)).

Global Instance token_usable_dec db now token r :
  Decision (token_usable db now token r).
Proof. unfold token_usable. apply _. Defined.

Definition reset_password `{PasswordUtils} (now : Z) (body : reset_body)
    (db : database) : database * reset_response :=
  let token := body_token body in
  if negb (truthy token) || negb (truthy (body_new_password body))
     || negb (truthy (body_confirmPassword body)) then
    (db, RenderResetPassword token (Some "All fields are required") false)
  else
    (* the three fields are present from here on *)
    let password := js_or (body_new_password body) "" in
    let confirmPassword := js_or (body_confirmPassword body) "" in
    if negb (String.eqb password confirmPassword) then
      (db, RenderResetPassword token (Some "Passwords do not match") false)
    else if (js_length password <? 8)%nat then
      (db, RenderResetPassword token
             (Some "Password must be at least 8 characters long") false)
    else
      match sql_get (token_usable db now (js_or token ""))
              (rows (password_reset_tokens db)) with
      | None => (db, RenderResetPassword None None true)
      | Some resetRecord =>
          let hashedPassword := hashPassword password in
          let db1 :=
            update_user (prt_user_id resetRecord)
              (set_password_hash hashedPassword) db in
          let db2 :=
            with_password_reset_tokens
              (mk_table
                 (sql_delete (λ r, prt_token r = js_or token "")
                    (rows (password_reset_tokens db1)))
                 (seq (password_reset_tokens db1)))
              db1 in
          let db3 :=
            with_sessions
              (sql_delete (λ s, s_user_id s = prt_user_id resetRecord)
                 (sessions db2))
              db2 in
          (db3, RedirectTo "/login?reset=success")
      end.

(** ** server.js: the chat room

    Every socket has an id.  [socket.userData] is a property the
    join-chat handler sets on the socket object; the room [main-chat] is
    the set of the sockets that joined it. *)

Record user_data := mk_user_data {
  ud_id : option Z;
  ud_username : option string;
  ud_displayName : option string;
  ud_profileColor : option string;
  ud_profileAvatar : option string
}.

Record chat_state := mk_chat_state {
  userData : gmap string user_data;
  main_chat : gset string
}.

(** Where an [emit] goes: [socket.to('main-chat')] and
    [socket.broadcast.to('main-chat')] reach the room without the
    emitting socket; [socket.emit] reaches the socket itself. *)
Inductive target :=
  | RoomExcept (sender : string)
  | Socket (socket : string).

Record message_data := mk_message_data {
  md_id : Z;
  md_message : string;
  md_user_id : Z;
  md_display_name : string;
  md_username : string;
  md_profile_color : string;
  md_profile_avatar : string;
  md_created_at : string
}.

Inductive payload :=
  | Presence (username : option string) (timestamp : string)
  | Message (messageData : message_data).

Record emission := mk_emission {
  em_target : target;
  em_event : string;
  em_payload : payload
}.

Definition on_join_chat (socket : string) (data : user_data) (now : Z)
    (st : chat_state) : chat_state * list emission :=
  (mk_chat_state (<[socket := data]> (userData st))
     ({[socket]} ∪ main_chat st),
   [mk_emission (RoomExcept socket) "user-joined"
      (Presence (js_or_opt (ud_displayName data) (ud_username data))
         (Clock.toISOString now))]).

Record chat_data := mk_chat_data {
  data_message : option string;
  data_userId : option Z
}.

(** [data] is [None] when the client sent no payload: the destructuring
    throws and the handler's [catch] only logs. *)
Definition on_chat_message (socket : string) (data : option chat_data)
    (now : Z) (db : database) : database * list emission :=
  match data with
  | None => (db, [])
  | Some data =>
      if negb (truthy (data_message data)) || negb (truthy_num (data_userId data))
      then (db, [])
      else
        (* both fields are present from here on *)
        let message := js_or (data_message data) "" in
        let userId := default 0 (data_userId data) in
        match sql_get (λ u, u_id u = userId) (users db) with
        | None => (db, [])
        | Some user =>
            let t := chat_messages db in
            let lastInsertRowid := next_rowid cm_id t in
            let db1 :=
              with_chat_messages
                (mk_table
                   (rows t ++ [mk_chat_message lastInsertRowid userId message
                                 (Clock.datetime now)])
                   lastInsertRowid)
                db in
            let messageData :=
              mk_message_data lastInsertRowid message userId
                (js_or (Some (u_display_name user)) (u_username user))
                (u_username user)
                (js_or (u_profile_color user) "#000000")
                (js_or (u_profile_avatar user) "👤")
                (Clock.toISOString now) in
            (db1,
             [mk_emission (RoomExcept socket) "new-message" (Message messageData);
              mk_emission (Socket socket) "message-sent" (Message messageData)])
        end
  end.

Definition on_disconnect (socket : string) (now : Z) (st : chat_state)
    : chat_state * list emission :=
  match userData st !! socket with
  | Some data =>
      (st,
       [mk_emission (RoomExcept socket) "user-left"
          (Presence (js_or_opt (ud_displayName data) (ud_username data))
             (Clock.toISOString now))])
  | None => (st, [])
  end.

(** Delivery: which connections an emission reaches. *)
Definition receives (st : chat_state) (c : string) (e : emission) : Prop :=
  match em_target e with
  | RoomExcept sender => c ∈ main_chat st ∧ c ≠ sender
  | Socket s => c = s
  end.

Global Instance receives_dec st c e : Decision (receives st c e).
Proof. unfold receives. destruct (em_target e); apply _. Defined.

(** The payloads of the events named [event] that connection [c] gets
    out of a list of emissions. *)
Definition received (st : chat_state) (c : string) (event : string)
    (ems : list emission) : list payload :=
  em_payload <$> filter (λ e, receives st c e ∧ em_event e = event) ems.

(** The emissions of one event, whoever they reach. *)
Definition emitted (event : string) (ems : list emission) : list emission :=
  filter (λ e, em_event e = event) ems.

(** ** Vocabulary of the properties *)

(** The row that [SELECT * FROM users WHERE username = ?] returns. *)
Definition user_named (db : database) (name : string) : option user :=
  sql_get (λ u, u_username u = name) (users db).

(** [id] is the primary key of [users]. *)
Definition users_pk (db : database) : Prop := NoDup (u_id <$> users db).

(** LOCKED, as the login handler tests it; ACTIVE otherwise. *)
Definition account_locked (u : user) : bool :=
  u_is_locked u && bool_decide (is_Some (u_lockout_until u)).

(** Login requests handled one after the other. *)
Definition run_logins `{PasswordUtils}
    (attempts : list (clock * login_request)) (db : database) : database :=
  foldl (λ db a, (login a.1 a.2 db).1) db attempts.

(** An attempt on the account of [u] that supplies a password which
    does not match the stored hash. *)
Definition wrong_password `{PasswordUtils} (u : user)
    (a : clock * login_request) : Prop :=
  body_username a.2 = Some (u_username u)
  ∧ truthy (body_username a.2) = true
  ∧ truthy (body_password a.2) = true
  ∧ comparePassword (js_or (body_password a.2) "") (u_password_hash u) = false.

(** What a failed password check does to the row of the account, and
    what the expiry of a lock does to it. *)
Definition failed_row (now : Z) (u : user) : user :=
  let u1 := set_failed_login_attempts (u_failed_login_attempts u + 1) u in
  if 5 <=? u_failed_login_attempts u1
  then set_lock true (Some (now + 15 * 60 * 1000)) u1
  else u1.

Definition unlocked_row (u : user) : user :=
  set_lock false None (set_failed_login_attempts 0 u).

(** The address the handler logs for a request. *)
Definition client_ip (req : login_request) : string :=
  js_or (req_ip req) (js_or (req_remoteAddress req) "127.0.0.1").

(** The causes for which reset-password turns a request down. *)
Definition reset_rejected (now : Z) (body : reset_body) (db : database)
    : Prop :=
  truthy (body_token body) = false
  ∨ truthy (body_new_password body) = false
  ∨ truthy (body_confirmPassword body) = false
  ∨ js_or (body_new_password body) "" ≠ js_or (body_confirmPassword body) ""
  ∨ (js_length (js_or (body_new_password body) "") < 8)%nat
  ∨ sql_get (token_usable db now (js_or (body_token body) ""))
      (rows (password_reset_tokens db)) = None.

(** A chat-message event the handler acts on: it has a payload, a
    message text, a user id, and the id is that of a stored user. *)
Definition chat_message_accepted (db : database) (data : option chat_data)
    : Prop :=
  match data with
  | None => False
  | Some d =>
      truthy (data_message d) = true
      ∧ truthy_num (data_userId d) = true
      ∧ is_Some (sql_get (λ u, u_id u = default 0 (data_userId d)) (users db))
  end.

(** A chat-message event the handler drops: no payload, a missing or
    empty message text, a missing or zero user id, or an id that no
    stored user has. *)
Definition chat_message_unusable (db : database) (data : option chat_data)
    : Prop :=
  match data with
  | None => True
  | Some d =>
      truthy (data_message d) = false
      ∨ truthy_num (data_userId d) = false
      ∨ sql_get (λ u, u_id u = default 0 (data_userId d)) (users db) = None
  end.

(** Modelled from the spec: the password-strength policy of section 7,
    whose implementation ([validatePassword] of modules/password-utils)
    is not among the sources.  A password must have at least 8
    characters, an uppercase letter, a lowercase letter, a digit and a
    special character; a special character is taken to be one that is
    neither a letter nor a digit. *)
Inductive policy_rule :=
  | MinLength8 | NeedsUppercase | NeedsLowercase | NeedsDigit | NeedsSpecial.

Definition is_uppercase (c : ascii) : bool :=
  let n := N_of_ascii c in ((65 <=? n) && (n <=? 90))%N.
Definition is_lowercase (c : ascii) : bool :=
  let n := N_of_ascii c in ((97 <=? n) && (n <=? 122))%N.
Definition is_digit (c : ascii) : bool :=
  let n := N_of_ascii c in ((48 <=? n) && (n <=? 57))%N.
Definition is_special (c : ascii) : bool :=
  negb (is_uppercase c || is_lowercase c || is_digit c).

Fixpoint string_exists (p : ascii → bool) (s : string) : bool :=
  match s with
  | EmptyString => false
  | String c s => p c || string_exists p s
  end.

Definition unmet_rules (password : string) : list policy_rule :=
  (if (String.length password <? 8)%nat then [MinLength8] else [])
  ++ (if string_exists is_uppercase password then [] else [NeedsUppercase])
  ++ (if string_exists is_lowercase password then [] else [NeedsLowercase])
  ++ (if string_exists is_digit password then [] else [NeedsDigit])
  ++ (if string_exists is_special password then [] else [NeedsSpecial]).

(** ** Sample data

    A stand-in for bcrypt and a transport that always delivers, the
    test accounts of the README, and a room. *)

Definition demo_password_utils : PasswordUtils :=
  {| hashPassword pw := "$2b$" +:+ pw;
     comparePassword pw h := String.eqb ("$2b$" +:+ pw) h |}.

Definition demo_transporter : Transporter :=
  {| sendMail m := Some ("<" +:+ mail_to m +:+ ">") |}.

Definition steve : user :=
  mk_user 1 "steve" "$2b$steve123" "steve@example.com" "Steve"
    (Some "#336699") None false None 0 None.

Definition john : user :=
  mk_user 2 "john" "$2b$john123" "john@example.com" "John"
    None (Some "🚀") false None 0 None.

Definition demo_db : database :=
  mk_db [steve; john]
    [mk_session "sess-a" 1 "{}" "2025-12-20 00:00:00";
     mk_session "sess-b" 2 "{}" "2025-12-20 00:00:00"]
    (mk_table [] 0) (mk_table [] 0) (mk_table [] 0).

(** 2025-12-19T12:34:56.789Z *)
Definition demo_now : Z := 1766147696789.

Definition wrong_login (at_ms : Z) : clock * login_request :=
  (mk_clock at_ms (at_ms + 90),
   mk_login_request (Some "steve") (Some "letmein") (Some "10.0.0.7") None).

(** Five wrong passwords for steve, one second apart. *)
Definition five_wrong_logins : list (clock * login_request) :=
  wrong_login <$> [demo_now; demo_now + 1000; demo_now + 2000;
                   demo_now + 3000; demo_now + 4000].

(** steve as the fifth of them leaves him. *)
Definition steve_locked : user :=
  mk_user 1 "steve" "$2b$steve123" "steve@example.com" "Steve"
    (Some "#336699") None true (Some (demo_now + 4090 + 15 * 60 * 1000)) 5 None.

Definition demo_locked_db : database := with_users [steve_locked; john] demo_db.

(** The database after steve asked for a reset link at [demo_now]. *)
Definition demo_reset_db : database :=
  (@forgot_password demo_transporter demo_now "aa11"
     (Some "steve@example.com") demo_db).1.

Definition demo_room : chat_state :=
  (on_join_chat "sock-B"
     (mk_user_data (Some 2) (Some "john") (Some "John") None (Some "🚀"))
     demo_now
     (on_join_chat "sock-A"
        (mk_user_data (Some 1) (Some "steve") (Some "Steve")
           (Some "#336699") None)
        demo_now
        (mk_chat_state ∅ ∅)).1).1.

(** * The rest of the handlers *)

(** ** routes/auth.js: login, when a statement throws

    The statements of [db] and [comparePassword] can throw:
    better-sqlite3 refuses a value it cannot bind (a field of the form
    that was sent twice reaches the handler as an array), a statement
    fails when the file cannot be written, a promise can reject.
    [throws] tells of each of them whether it does on this run; what
    the handler asks of Express ([req.session], [res.redirect]) is
    taken to return.

    [logLoginAttempt] and [handleFailedLogin] catch what their
    statements throw, print it and return.  The [catch] of the handler
    calls [logLoginAttempt(username || '', ...)], but [username] is
    declared inside the [try] block: the reference throws in its turn
    before anything is logged, and the handler ends without a row in
    [login_attempts] and without an answer. *)






(** ** JavaScript strings, as UTF-8 text

    [\s] of a regular expression and [String.prototype.trim] know the
    same characters: the white space and the line terminators of
    ECMAScript, listed here by their UTF-8 bytes. *)

Definition bytes (l : list nat) : string :=
  foldr (λ n s, String (ascii_of_nat n) s) "" l.

Definition js_whitespace : list string :=
  bytes <$>
    [ [9%nat]; [10%nat]; [11%nat]; [12%nat]; [13%nat]; [32%nat];
      [194; 160]%nat;                         (* U+00A0 *)
      [225; 154; 128]%nat;                    (* U+1680 *)
      [226; 128; 128]%nat; [226; 128; 129]%nat; [226; 128; 130]%nat;
      [226; 128; 131]%nat; [226; 128; 132]%nat; [226; 128; 133]%nat;
      [226; 128; 134]%nat; [226; 128; 135]%nat; [226; 128; 136]%nat;
      [226; 128; 137]%nat; [226; 128; 138]%nat; (* U+2000 to U+200A *)
      [226; 128; 168]%nat; [226; 128; 169]%nat; (* U+2028, U+2029 *)
      [226; 128; 175]%nat;                    (* U+202F *)
      [226; 129; 159]%nat;                    (* U+205F *)
      [227; 128; 128]%nat;                    (* U+3000 *)
      [239; 187; 191]%nat ].                  (* U+FEFF *)

(** What is left of [s] behind one of [seqs] it starts with. *)
Definition strip_one (seqs : list string) (s : string) : option string :=
  (λ w, String.substring (String.length w)
          (String.length s - String.length w) s)
  <$> head (filter (λ w, String.prefix w s = true) seqs).

Fixpoint strip_all (fuel : nat) (seqs : list string) (s : string) : string :=
  match fuel with
  | O => s
  | S fuel =>
      match strip_one seqs s with
      | Some s' => strip_all fuel seqs s'
      | None => s
      end
  end.

Definition trimStart (s : string) : string :=
  strip_all (String.length s) js_whitespace s.

Definition trim (s : string) : string :=
  String.rev
    (strip_all (String.length s) (String.rev <$> js_whitespace)
       (String.rev (trimStart s))).

(** Whether [s] holds one of [seqs] somewhere. *)
Fixpoint contains_any (seqs : list string) (s : string) : bool :=
  bool_decide (is_Some (strip_one seqs s))
  || match s with
     | EmptyString => false
     | String _ s' => contains_any seqs s'
     end.

(** [c] occurs in [s] with something before it and something after. *)
Fixpoint char_inside (c : ascii) (s : string) : bool :=
  match s with
  | EmptyString => false
  | String _ s' =>
      match s' with
      | String b (String _ _) => Ascii.eqb b c || char_inside c s'
      | _ => false
      end
  end.

Fixpoint split_at (c : ascii) (s : string) : option (string * string) :=
  match s with
  | EmptyString => None
  | String a s' =>
      if Ascii.eqb a c then Some ("", s')
      else (λ p, (String a p.1, p.2)) <$> split_at c s'
  end.

(** [/^[^\s@]+@[^\s@]+\.[^\s@]+$/.test(s)]: no white space, one [@]
    with something before it, and behind it a dot that is neither
    first nor last. *)
Definition emailRegex_test (s : string) : bool :=
  negb (contains_any js_whitespace s)
  && match split_at "@" s with
     | Some (name, domain) =>
         negb (String.eqb name "")
         && bool_decide (split_at "@" domain = None)
         && char_inside "." domain
     | None => false
     end.

(** ** routes/auth.js: the page of GET /reset-password *)

(** [res.render('reset-password', { token, tokenExpired, invalidToken })];
    a key that is not passed is [None] or [false]. *)
Inductive reset_page :=
  | ResetPage (token : option string) (tokenExpired invalidToken : bool).

Definition reset_password_page (now : Z) (query_token : option string)
    (db : database) : reset_page :=
  if negb (truthy query_token) then ResetPage None false true
  else
    let token := js_or query_token "" in
    match sql_get
            (λ r, prt_token r = token
                  ∧ String.ltb (Clock.datetime now) (prt_expires_at r) = true)
            (rows (password_reset_tokens db)) with
    | None =>
        let expiredRecord :=
          sql_get (λ r, prt_token r = token) (rows (password_reset_tokens db)) in
        ResetPage None (bool_decide (is_Some expiredRecord))
          (negb (bool_decide (is_Some expiredRecord)))
    | Some _ => ResetPage (Some token) false false
    end.

(** ** routes/auth.js: register *)

(** The third function of [modules/password-utils], which answers
    [{ valid, errors }]. *)
Record validation := mk_validation {
  v_valid : bool;
  v_errors : list string
}.

Class PasswordPolicy := {
  validatePassword : string → validation
}.

Record register_body := mk_register_body {
  rb_username : option string;
  rb_password : option string;
  rb_email : option string;
  rb_displayName : option string
}.

Inductive register_response :=
  | RedirectRegisterError (error : string)
      (* /api/auth/register?error=<error> *)
  | RedirectRegisterSuccess (username : string) (userId : Z).
      (* /public/register-success.html?username=<username>&userId=<userId> *)

(** [users] has an AUTOINCREMENT key as well; its [sqlite_sequence]
    entry travels beside the database. *)
Definition register `{PasswordUtils} `{PasswordPolicy} (body : register_body)
    (st : Z * database) : (Z * database) * register_response :=
  let users_seq := st.1 in
  let db := st.2 in
  if negb (truthy (rb_username body)) || negb (truthy (rb_password body))
     || negb (truthy (rb_email body)) || negb (truthy (rb_displayName body))
  then
    (st, RedirectRegisterError
           "All fields are required: username, password, email, and display name")
  else
    (* the four fields are present from here on *)
    let username := js_or (rb_username body) "" in
    let password := js_or (rb_password body) "" in
    let email := js_or (rb_email body) "" in
    let displayName := js_or (rb_displayName body) "" in
    if negb (emailRegex_test email) then
      (st, RedirectRegisterError "Please enter a valid email address")
    else
      let validation := validatePassword password in
      if negb (v_valid validation) then
        let errorsText := String.concat ", " (v_errors validation) in
        (st, RedirectRegisterError
               ("Password does not meet requirements: " +:+ errorsText))
      else if bool_decide
                (is_Some (sql_get (λ u, u_username u = username) (users db)))
      then
        (st, RedirectRegisterError
               "Username already exists. Please choose a different username.")
      else if bool_decide
                (is_Some (sql_get (λ u, u_email u = email) (users db)))
      then
        (st, RedirectRegisterError
               "Email address already registered. Please use a different email.")
      else
        let passwordHash := hashPassword password in
        let lastInsertRowid :=
          next_rowid u_id (mk_table (users db) users_seq) in
        let db1 :=
          with_users
            (users db
               ++ [mk_user lastInsertRowid username passwordHash email
                     displayName (Some "#000000") None false None 0 None])
            db in
        ((lastInsertRowid, db1), RedirectRegisterSuccess username lastInsertRowid).

(** ** server.js and routes/profile.js: the user of a session

    [session_userId] is [req.session.userId], [None] without a session. *)
Inductive current_user :=
  | Guest
  | LoggedIn (id : Z) (username displayName email : string)
      (profileColor profileAvatar : option string).

Definition getCurrentUser (session_userId : option Z) (db : database)
    : current_user :=
  if truthy_num session_userId then
    match sql_get (λ u, u_id u = default 0 session_userId) (users db) with
    | Some user =>
        LoggedIn (u_id user) (u_username user) (u_display_name user)
          (u_email user) (u_profile_color user) (u_profile_avatar user)
    | None => Guest
    end
  else Guest.

(** ** routes/profile.js *)

Inductive profile_response :=
  | RedirectToLogin
  | RenderProfile (user : current_user) (successMessage : option string)
      (errorMessage : option string).

Definition set_email (e : string) (u : user) : user :=
  mk_user (u_id u) (u_username u) (u_password_hash u) e
    (u_display_name u) (u_profile_color u) (u_profile_avatar u)
    (u_is_locked u) (u_lockout_until u) (u_failed_login_attempts u)
    (u_last_login u).

Definition set_profile_avatar (a : option string) (u : user) : user :=
  mk_user (u_id u) (u_username u) (u_password_hash u) (u_email u)
    (u_display_name u) (u_profile_color u) a
    (u_is_locked u) (u_lockout_until u) (u_failed_login_attempts u)
    (u_last_login u).

Record email_body := mk_email_body {
  eb_currentPassword : option string;
  eb_newEmail : option string
}.

Definition update_email `{PasswordUtils} (session_userId : option Z)
    (body : email_body) (db : database) : database * profile_response :=
  if negb (truthy_num session_userId) then (db, RedirectToLogin)
  else
    let userId := default 0 session_userId in
    if negb (truthy (eb_currentPassword body)) || negb (truthy (eb_newEmail body))
    then
      (db, RenderProfile (getCurrentUser session_userId db) None
             (Some "Current password and new email are required"))
    else
      let currentPassword := js_or (eb_currentPassword body) "" in
      let newEmail := js_or (eb_newEmail body) "" in
      match sql_get (λ u, u_id u = userId) (users db) with
      | None =>
          (db, RenderProfile (getCurrentUser session_userId db) None
                 (Some "User not found"))
      | Some user =>
          if negb (comparePassword currentPassword (u_password_hash user)) then
            (db, RenderProfile (getCurrentUser session_userId db) None
                   (Some "Current password is incorrect"))
          else if negb (emailRegex_test newEmail) then
            (db, RenderProfile (getCurrentUser session_userId db) None
                   (Some "Please enter a valid email address"))
          else if bool_decide
                    (is_Some
                       (sql_get (λ u, u_email u = newEmail ∧ u_id u ≠ userId)
                          (users db)))
          then
            (db, RenderProfile (getCurrentUser session_userId db) None
                   (Some "This email address is already in use by another account"))
          else
            let db1 := update_user userId (set_email newEmail) db in
            (db1, RenderProfile (getCurrentUser session_userId db1)
                    (Some "Email address updated successfully!") None)
      end.

Record change_password_body := mk_change_password_body {
  cp_currentPassword : option string;
  cp_newPassword : option string;
  cp_confirmPassword : option string
}.

Definition change_password `{PasswordUtils} `{PasswordPolicy}
    (session_userId : option Z) (body : change_password_body) (db : database)
    : database * profile_response :=
  if negb (truthy_num session_userId) then (db, RedirectToLogin)
  else
    let userId := default 0 session_userId in
    if negb (truthy (cp_currentPassword body))
       || negb (truthy (cp_newPassword body))
       || negb (truthy (cp_confirmPassword body))
    then
      (db, RenderProfile (getCurrentUser session_userId db) None
             (Some "All password fields are required"))
    else
      let currentPassword := js_or (cp_currentPassword body) "" in
      let newPassword := js_or (cp_newPassword body) "" in
      let confirmPassword := js_or (cp_confirmPassword body) "" in
      if negb (String.eqb newPassword confirmPassword) then
        (db, RenderProfile (getCurrentUser session_userId db) None
               (Some "New passwords do not match"))
      else
        let validation := validatePassword newPassword in
        if negb (v_valid validation) then
          let errorsText := String.concat ", " (v_errors validation) in
          (db, RenderProfile (getCurrentUser session_userId db) None
                 (Some ("Password does not meet requirements: " +:+ errorsText)))
        else
          match sql_get (λ u, u_id u = userId) (users db) with
          | None =>
              (db, RenderProfile (getCurrentUser session_userId db) None
                     (Some "User not found"))
          | Some user =>
              if negb (comparePassword currentPassword (u_password_hash user))
              then
                (db, RenderProfile (getCurrentUser session_userId db) None
                       (Some "Current password is incorrect"))
              else
                let newPasswordHash := hashPassword newPassword in
                let db1 :=
                  update_user userId (set_password_hash newPasswordHash) db in
                (db1, RenderProfile (getCurrentUser session_userId db1)
                        (Some "Password changed successfully!") None)
          end.

(** The payload of [avatar-updated], which [req.io.to('main-chat')]
    sends to every socket of the room. *)
Record avatar_updated := mk_avatar_updated {
  au_userId : Z;
  au_username : option string;
  au_displayName : option string;
  au_newAvatar : string
}.

Definition allowedAvatars : list string :=
  ["😊"; "😎"; "🤓"; "😴"; "🤩"; "🥳"; "🤖"; "👻"; "🦊"; "🐱"; "🐶"; "🚀"; ""].

Definition update_avatar (session_userId : option Z) (avatar : option string)
    (db : database)
    : database * profile_response * option avatar_updated :=
  if negb (truthy_num session_userId) then (db, RedirectToLogin, None)
  else
    let userId := default 0 session_userId in
    if truthy avatar && negb (bool_decide (js_or avatar "" ∈ allowedAvatars))
    then
      (db, RenderProfile (getCurrentUser session_userId db) None
             (Some "Invalid avatar selection"), None)
    else
      let avatarValue := if truthy avatar then avatar else None in
      let db1 := update_user userId (set_profile_avatar avatarValue) db in
      let updatedUser := getCurrentUser session_userId db1 in
      (db1,
       RenderProfile updatedUser
         (Some "Avatar updated successfully! Your new avatar will appear in comments and chat.")
         None,
       Some (mk_avatar_updated userId
               (match updatedUser with
                | LoggedIn _ username _ _ _ _ => Some username
                | Guest => None
                end)
               (match updatedUser with
                | LoggedIn _ _ displayName _ _ _ => Some displayName
                | Guest => Some "Guest"
                end)
               (js_or avatarValue "👤"))).

(** ** server.js: comments

    The table [comments] is kept beside the database. *)

Record comment := mk_comment {
  c_id : Z;
  c_user_id : Z;
  c_text : string;
  c_parent_id : option Z;
  c_is_edited : bool;
  c_edit_count : Z;
  c_created_at : string;
  c_updated_at : string
}.

Definition addCommentToDB (userId : Z) (text : string) (now : Z)
    (t : table comment) : table comment :=
  let i := next_rowid c_id t in
  mk_table
    (rows t ++ [mk_comment i userId text None false 0 (Clock.datetime now)
                  (Clock.datetime now)])
    i.

Inductive page_response :=
  | RedirectPage (location : string)
  | JsonPage (status : Z) (success : bool) (message : string).

(** POST /comments/addcomment *)
Definition post_addcomment (session_userId : option Z)
    (body_text : option string) (now : Z) (db : database) (t : table comment)
    : table comment * page_response :=
  match getCurrentUser session_userId db with
  | Guest => (t, RedirectPage "/login")
  | LoggedIn id _ _ _ _ _ =>
      let commentText :=
        if truthy body_text then trim (js_or body_text "") else "" in
      if negb (String.eqb commentText "") then
        (addCommentToDB id commentText now t, RedirectPage "/comments")
      else (t, RedirectPage "/comments")
  end.

(** [parseInt(req.params.id)] is [None] when it is [NaN], which no row
    has for an id. *)
Definition comment_by_id (commentId : option Z) (t : table comment)
    : option comment :=
  commentId ≫= λ i, sql_get (λ c, c_id c = i) (rows t).

(** POST /comments/edit/:id *)
Definition post_editcomment (session_userId : option Z) (commentId : option Z)
    (body_text : option string) (now : Z) (db : database) (t : table comment)
    : table comment * page_response :=
  match getCurrentUser session_userId db with
  | Guest => (t, RedirectPage "/login")
  | LoggedIn id _ _ _ _ _ =>
      let newText :=
        if truthy body_text then trim (js_or body_text "") else "" in
      if String.eqb newText "" then
        (t, RedirectPage
              ("/comments/edit/"
                 +:+ match commentId with Some i => pretty i | None => "NaN" end))
      else
        match comment_by_id commentId t with
        | None => (t, RedirectPage "/comments")
        | Some comment =>
            if negb (c_user_id comment =? id) then (t, RedirectPage "/comments")
            else
              (mk_table
                 (sql_update (λ c, Some (c_id c) = commentId)
                    (λ c, mk_comment (c_id c) (c_user_id c) newText
                            (c_parent_id c) true (c_edit_count c + 1)
                            (c_created_at c) (Clock.datetime now))
                    (rows t))
                 (seq t),
               RedirectPage "/comments")
        end
  end.

(** [DELETE FROM comments WHERE id = ?] with foreign keys on: the
    replies go with the comment ([parent_id ... ON DELETE CASCADE]),
    and theirs with them. *)
Fixpoint delete_cascade (fuel : nat) (doomed : list Z) (rows : list comment)
    : list comment :=
  match fuel with
  | O => rows
  | S fuel =>
      let gone := filter (λ c, c_id c ∈ doomed) rows in
      match gone with
      | [] => rows
      | _ =>
          let kept := filter (λ c, c_id c ∉ doomed) rows in
          delete_cascade fuel
            (c_id <$> filter (λ c, c_parent_id c ∈ (Some ∘ c_id <$> gone))
                        kept)
            kept
      end
  end.

(** DELETE /comments/delete/:id *)
Definition delete_comment (session_userId : option Z) (commentId : option Z)
    (db : database) (t : table comment) : table comment * page_response :=
  match getCurrentUser session_userId db with
  | Guest => (t, JsonPage 401 false "Not logged in")
  | LoggedIn id _ _ _ _ _ =>
      match comment_by_id commentId t with
      | None => (t, JsonPage 404 false "Comment not found")
      | Some comment =>
          if negb (c_user_id comment =? id) then
            (t, JsonPage 403 false "You can only delete your own comments")
          else
            (mk_table
               (delete_cascade (S (length (rows t))) [c_id comment] (rows t))
               (seq t),
             JsonPage 200 true "Comment deleted successfully")
      end
  end.

From Stdlib Require Sorted.

(** ** Vocabulary of the further properties *)

(** The columns of a user that identify the account and its secret. *)
Definition credentials (u : user) : Z * string * string * string :=
  (u_id u, u_username u, u_email u, u_password_hash u).

(** The columns that the lockout writes. *)
Definition lock_state (u : user) : bool * option Z * Z :=
  (u_is_locked u, u_lockout_until u, u_failed_login_attempts u).


(** [username] and [email] are [UNIQUE] in [users]. *)
Definition users_unique (db : database) : Prop :=
  NoDup (u_username <$> users db) ∧ NoDup (u_email <$> users db).

(** [user_id] of [password_reset_tokens] references [users]. *)
Definition tokens_fk (db : database) : Prop :=
  ∀ r, r ∈ rows (password_reset_tokens db) →
       is_Some (sql_get (λ u, u_id u = prt_user_id r) (users db)).

(** [id] is the primary key of [comments]. *)
Definition comments_pk (t : table comment) : Prop := NoDup (c_id <$> rows t).

(** [FOREIGN KEY (parent_id) REFERENCES comments(id)]: a reply points at
    a comment of the table. *)
Definition comments_fk (t : table comment) : Prop :=
  ∀ c p, c ∈ rows t → c_parent_id c = Some p →
         ∃ c', c' ∈ rows t ∧ c_id c' = p.

(** The ids of a table grow in the order of its rows. *)
Definition ids_increasing {A} (rowid : A → Z) (t : table A) : Prop :=
  Sorted.StronglySorted Z.lt (rowid <$> rows t).

(** ** More sample data

    A policy that reports the unmet rules of the specification, a
    transport that is down, and two comments. *)

Definition demo_policy : PasswordPolicy :=
  {| validatePassword pw :=
       mk_validation
         (match unmet_rules pw with [] => true | _ => false end)
         ((λ r, match r with
                | MinLength8 => "at least 8 characters"
                | NeedsUppercase => "an uppercase letter"
                | NeedsLowercase => "a lowercase letter"
                | NeedsDigit => "a digit"
                | NeedsSpecial => "a special character"
                end) <$> unmet_rules pw) |}.

Definition demo_dead_transporter : Transporter :=
  {| sendMail _ := None |}.

Definition demo_comments : table comment :=
  mk_table
    [mk_comment 1 1 "first" None false 0 "2025-12-19 10:00:00"
       "2025-12-19 10:00:00";
     mk_comment 2 2 "second" None false 0 "2025-12-19 11:00:00"
       "2025-12-19 11:00:00"]
    2.

(** A thread: a reply to the first comment, and a reply to that reply. *)
Definition demo_thread : table comment :=
  mk_table
    [mk_comment 1 1 "first" None false 0 "2025-12-19 10:00:00"
       "2025-12-19 10:00:00";
     mk_comment 2 2 "second" None false 0 "2025-12-19 11:00:00"
       "2025-12-19 11:00:00";
     mk_comment 3 2 "re: first" (Some 1) false 0 "2025-12-19 12:00:00"
       "2025-12-19 12:00:00";
     mk_comment 4 1 "re: re: first" (Some 3) false 0 "2025-12-19 13:00:00"
       "2025-12-19 13:00:00"]
    4.


Definition alex_body : register_body :=
  mk_register_body (Some "alex") (Some "Tr0ub4dor&3")
    (Some "alex@example.com") (Some "Alex").

(** * Properties *)

(** ** Facts about the SQL statements *)

Section SqlFacts.
Context {A : Type}.
Implicit Types l : list A.

Lemma sql_get_Some (P : A → Prop) `{!∀ r, Decision (P r)} l r :
  sql_get P l = Some r → r ∈ l ∧ P r.
Proof.
  unfold sql_get. intros Hhd. apply head_Some_elem_of in Hhd.
  apply list_elem_of_filter in Hhd. tauto.
Qed.

Lemma sql_get_None (P : A → Prop) `{!∀ r, Decision (P r)} l :
  sql_get P l = None ↔ ∀ r, r ∈ l → ¬ P r.
Proof.
  unfold sql_get. rewrite head_None. split.
  - intros Hnil r Hr HP. eapply filter_nil_not_elem_of; eauto.
  - intros Hno. induction l as [|x l IH]; [done|].
    rewrite filter_cons. destruct (decide (P x)) as [HP|_].
    + exfalso. apply (Hno x); [left | done].
    + apply IH. intros r Hr. apply Hno. by right.
Qed.

Lemma sql_get_is_Some (P : A → Prop) `{!∀ r, Decision (P r)} l r :
  r ∈ l → P r → is_Some (sql_get P l).
Proof.
  intros Hr HP. destruct (sql_get P l) eqn:E; [eauto|].
  exfalso. rewrite sql_get_None in E. exact (E r Hr HP).
Qed.

(** An update that does not touch the selecting column commutes with
    the selection. *)
Lemma sql_get_update (P Q : A → Prop) `{!∀ r, Decision (P r)}
    `{!∀ r, Decision (Q r)} (f : A → A) l :
  (∀ r, P (f r) ↔ P r) →
  sql_get P (sql_update Q f l)
  = (λ r, if decide (Q r) then f r else r) <$> sql_get P l.
Proof.
  intros Hf. unfold sql_get, sql_update.
  induction l as [|x l IH]; [done|].
  rewrite fmap_cons, !filter_cons.
  destruct (decide (Q x)) as [HQ|HQ].
  - destruct (decide (P x)) as [HP|HP].
    + rewrite decide_True by by apply Hf. simpl. by rewrite decide_True.
    + rewrite decide_False by by rewrite Hf. apply IH.
  - destruct (decide (P x)) as [HP|HP]; [|apply IH].
    simpl. by rewrite decide_False.
Qed.

Lemma sql_update_update (Q : A → Prop) `{!∀ r, Decision (Q r)}
    (f g : A → A) l :
  (∀ r, Q (f r) ↔ Q r) →
  sql_update Q g (sql_update Q f l) = sql_update Q (g ∘ f) l.
Proof.
  intros Hf. unfold sql_update. rewrite <- list_fmap_compose.
  apply list_fmap_ext. intros _ r _. simpl.
  destruct (decide (Q r)) as [HQ|HQ].
  - by rewrite decide_True by by apply Hf.
  - by rewrite decide_False.
Qed.

Lemma sql_update_key {K} (key : A → K) (Q : A → Prop)
    `{!∀ r, Decision (Q r)} (f : A → A) l :
  (∀ r, key (f r) = key r) → key <$> sql_update Q f l = key <$> l.
Proof.
  intros Hf. unfold sql_update. rewrite <- list_fmap_compose.
  apply list_fmap_ext. intros _ r _. simpl. by destruct (decide (Q r)).
Qed.

(** Selecting on a key column returns the one row that carries it. *)
Lemma sql_get_pk {K} `{!EqDecision K} (key : A → K) l r :
  NoDup (key <$> l) → r ∈ l → sql_get (λ v, key v = key r) l = Some r.
Proof.
  unfold sql_get. induction l as [|x l IH]; intros Hnd Hr.
  - by apply elem_of_nil in Hr.
  - rewrite fmap_cons in Hnd. apply NoDup_cons in Hnd as [Hx Hnd].
    rewrite filter_cons. apply elem_of_cons in Hr as [->|Hr].
    + by rewrite decide_True.
    + rewrite decide_False; [by apply IH|].
      intros Heq. apply Hx. rewrite Heq. by apply list_elem_of_fmap_2.
Qed.

Lemma pk_unique {K} (key : A → K) l r r' :
  NoDup (key <$> l) → r ∈ l → r' ∈ l → key r = key r' → r = r'.
Proof.
  induction l as [|x l IH]; intros Hnd Hr Hr' Hk.
  - by apply elem_of_nil in Hr.
  - rewrite fmap_cons in Hnd. apply NoDup_cons in Hnd as [Hx Hnd].
    apply elem_of_cons in Hr as [->|Hr];
      apply elem_of_cons in Hr' as [->|Hr']; auto.
    + exfalso. apply Hx. rewrite Hk. by apply list_elem_of_fmap_2.
    + exfalso. apply Hx. rewrite <- Hk. by apply list_elem_of_fmap_2.
Qed.

Lemma sql_update_ext (Q : A → Prop) `{!∀ r, Decision (Q r)}
    (f g : A → A) l :
  (∀ r, r ∈ l → Q r → f r = g r) → sql_update Q f l = sql_update Q g l.
Proof.
  intros Hfg. unfold sql_update. apply list_fmap_ext. intros i r Hi. simpl.
  destruct (decide (Q r)); [|done].
  apply Hfg; [|done]. by eapply list_elem_of_lookup_2.
Qed.

Lemma sql_delete_spec (P : A → Prop) `{!∀ r, Decision (P r)} l r :
  r ∈ sql_delete P l ↔ ¬ P r ∧ r ∈ l.
Proof. unfold sql_delete. by rewrite list_elem_of_filter. Qed.
End SqlFacts.

(** ** Facts about the values of request fields *)

Lemma truthy_Some (v : option string) :
  truthy v = true → v = Some (js_or v "") ∧ js_or v "" ≠ "".
Proof.
  destruct v as [s|]; simpl; [|done].
  destruct (String.eqb s "") eqn:E; [done|]. intros _. split; [done|].
  by apply String.eqb_neq.
Qed.

Lemma truthy_present (s : string) : s ≠ "" → truthy (Some s) = true.
Proof. intros Hs. simpl. apply String.eqb_neq in Hs. by rewrite Hs. Qed.

Lemma js_or_present (s d : string) : s ≠ "" → js_or (Some s) d = s.
Proof. intros Hs. simpl. apply String.eqb_neq in Hs. by rewrite Hs. Qed.

(** ** Facts about the rows of [users] *)

Lemma failed_row_username now u : u_username (failed_row now u) = u_username u.
Proof. unfold failed_row. simpl. by destruct (5 <=? _). Qed.

Lemma failed_row_id now u : u_id (failed_row now u) = u_id u.
Proof. unfold failed_row. simpl. by destruct (5 <=? _). Qed.

Lemma failed_row_password_hash now u :
  u_password_hash (failed_row now u) = u_password_hash u.
Proof. unfold failed_row. simpl. by destruct (5 <=? _). Qed.

Lemma failed_row_attempts now u :
  u_failed_login_attempts (failed_row now u) = u_failed_login_attempts u + 1.
Proof. unfold failed_row. simpl. by destruct (5 <=? _). Qed.

Lemma failed_row_below now u :
  u_failed_login_attempts u + 1 < 5 →
  account_locked (failed_row now u) = account_locked u.
Proof.
  intros Hlt. unfold failed_row. simpl.
  destruct (5 <=? _) eqn:E; [|done]. apply Z.leb_le in E. lia.
Qed.

Lemma failed_row_fifth now u :
  u_failed_login_attempts u + 1 = 5 →
  failed_row now u
  = set_lock true (Some (now + 15 * 60 * 1000))
      (set_failed_login_attempts 5 u).
Proof. intros Heq. unfold failed_row. simpl. by rewrite Heq. Qed.

Lemma update_user_pk i (f : user → user) db :
  (∀ r, u_id (f r) = u_id r) → users_pk db → users_pk (update_user i f db).
Proof.
  intros Hf. unfold users_pk, update_user. simpl. by rewrite sql_update_key.
Qed.

Lemma user_named_update (f : user → user) db name u :
  (∀ r, u_username (f r) = u_username r) →
  user_named db name = Some u →
  user_named (update_user (u_id u) f db) name = Some (f u).
Proof.
  intros Hf Hu. unfold user_named, update_user in *. simpl.
  rewrite sql_get_update by (intros r; by rewrite Hf).
  rewrite Hu. simpl. by rewrite decide_True.
Qed.

Lemma user_named_elem db name u :
  user_named db name = Some u → u ∈ users db ∧ u_username u = name.
Proof.
  intros Hu. by apply (sql_get_Some (λ v, u_username v = name)) in Hu.
Qed.

Lemma user_by_id db u :
  users_pk db → u ∈ users db →
  sql_get (λ v, u_id v = u_id u) (users db) = Some u.
Proof. intros Hpk Hu. by apply (sql_get_pk u_id). Qed.

(** ** Facts about the login handler *)

Lemma handleFailedLogin_users userId name ip now db u :
  users_pk db → u ∈ users db → userId = u_id u →
  users (handleFailedLogin userId name ip now db)
  = users (update_user userId (failed_row now) db).
Proof.
  intros Hpk Hu ->. unfold handleFailedLogin.
  assert (sql_get (λ v, u_id v = u_id u)
            (users (update_user (u_id u)
               (λ v, set_failed_login_attempts
                       (u_failed_login_attempts v + 1) v) db))
          = Some (set_failed_login_attempts (u_failed_login_attempts u + 1) u))
    as ->.
  { unfold update_user. simpl. rewrite sql_get_update by done.
    rewrite user_by_id by done. simpl. by rewrite decide_True. }
  simpl. destruct (5 <=? u_failed_login_attempts u + 1) eqn:E; simpl.
  - rewrite sql_update_update by done. apply sql_update_ext.
    intros r Hr Hid. assert (r = u) as -> by by eapply (pk_unique u_id).
    unfold failed_row. simpl. by rewrite E.
  - apply sql_update_ext.
    intros r Hr Hid. assert (r = u) as -> by by eapply (pk_unique u_id).
    unfold failed_row. simpl. by rewrite E.
Qed.

Lemma handleFailedLogin_log userId name ip now db u :
  users_pk db → u ∈ users db → userId = u_id u →
  rows (login_attempts (handleFailedLogin userId name ip now db))
  = rows (login_attempts db)
    ++ [mk_attempt (next_rowid la_id (login_attempts db)) name ip false
          (Some (if 5 <=? u_failed_login_attempts u + 1
                 then "account_locked_after_attempts"
                 else "invalid_password"))
          (Clock.datetime now)].
Proof.
  intros Hpk Hu ->. unfold handleFailedLogin.
  assert (sql_get (λ v, u_id v = u_id u)
            (users (update_user (u_id u)
               (λ v, set_failed_login_attempts
                       (u_failed_login_attempts v + 1) v) db))
          = Some (set_failed_login_attempts (u_failed_login_attempts u + 1) u))
    as ->.
  { unfold update_user. simpl. rewrite sql_get_update by done.
    rewrite user_by_id by done. simpl. by rewrite decide_True. }
  simpl. by destruct (5 <=? u_failed_login_attempts u + 1).
Qed.

Section LoginFacts.
Context `{PasswordUtils}.

(** The branch a request takes once its fields are present and its
    account is found. *)
Lemma login_found clk req db u :
  body_username req = Some (u_username u) →
  truthy (body_username req) = true →
  truthy (body_password req) = true →
  user_named db (u_username u) = Some u →
  login clk req db
  = let username := u_username u in
    let password := js_or (body_password req) "" in
    let verdict (db : database) :=
      if negb (comparePassword password (u_password_hash u)) then
        (handleFailedLogin (u_id u) username (client_ip req)
           (at_verdict clk) db,
         RedirectLoginError "Invalid username or password")
      else
        (logLoginAttempt username (client_ip req) true (Some "success")
           (at_verdict clk)
           (update_user (u_id u)
              (λ v, set_lock false None
                      (set_failed_login_attempts 0
                         (set_last_login
                            (Some (Clock.datetime (at_verdict clk))) v)))
              db),
         RedirectLoginSuccess
           (mk_session_data (u_id u) (u_username u) (u_display_name u) true)
           (js_or (Some (u_display_name u)) (u_username u))) in
    match u_is_locked u, u_lockout_until u with
    | true, Some lockoutEnd =>
        if at_request clk <? lockoutEnd then
          (logLoginAttempt username (client_ip req) false
             (Some "account_locked") (at_request clk) db,
           RedirectLoginError
             ("Account is locked. Try again in "
                +:+ pretty (ceil_div (lockoutEnd - at_request clk) (1000 * 60))
                +:+ " minutes."))
        else verdict (update_user (u_id u) unlocked_row db)
    | _, _ => verdict db
    end.
Proof.
  intros Hname Hn Hp Hu. unfold login.
  rewrite Hn, Hp. simpl negb. simpl orb. cbv iota.
  assert (js_or (body_username req) "" = u_username u) as ->.
  { apply truthy_Some in Hn as [Hn _]. congruence. }
  unfold user_named in Hu. rewrite Hu. reflexivity.
Qed.

Lemma login_wrong_password clk req db u :
  user_named db (u_username u) = Some u →
  account_locked u = false →
  wrong_password u (clk, req) →
  login clk req db
  = (handleFailedLogin (u_id u) (u_username u) (client_ip req)
       (at_verdict clk) db,
     RedirectLoginError "Invalid username or password").
Proof.
  intros Hu Hactive (Hname & Hn & Hp & Hcmp). simpl in *.
  rewrite (login_found clk req db u) by done. simpl. rewrite Hcmp. simpl.
  unfold account_locked in Hactive.
  destruct (u_is_locked u); [|done].
  destruct (u_lockout_until u); [|done]. done.
Qed.

Lemma login_locked clk req db u lockoutEnd :
  user_named db (u_username u) = Some u →
  u_is_locked u = true →
  u_lockout_until u = Some lockoutEnd →
  at_request clk < lockoutEnd →
  body_username req = Some (u_username u) →
  truthy (body_username req) = true →
  truthy (body_password req) = true →
  login clk req db
  = (logLoginAttempt (u_username u) (client_ip req) false
       (Some "account_locked") (at_request clk) db,
     RedirectLoginError
       ("Account is locked. Try again in "
          +:+ pretty (ceil_div (lockoutEnd - at_request clk) (1000 * 60))
          +:+ " minutes.")).
Proof.
  intros Hu Hl He Hlt Hname Hn Hp.
  rewrite (login_found clk req db u) by done. simpl. rewrite Hl, He.
  apply Z.ltb_lt in Hlt. by rewrite Hlt.
Qed.

Lemma login_lock_expired clk req db u lockoutEnd :
  user_named db (u_username u) = Some u →
  u_is_locked u = true →
  u_lockout_until u = Some lockoutEnd →
  lockoutEnd ≤ at_request clk →
  body_username req = Some (u_username u) →
  truthy (body_username req) = true →
  truthy (body_password req) = true →
  login clk req db
  = login clk req (update_user (u_id u) unlocked_row db).
Proof.
  intros Hu Hl He Hle Hname Hn Hp.
  rewrite (login_found clk req db u) by done.
  pose proof (user_named_update unlocked_row db _ u (λ _, eq_refl) Hu) as Hu'.
  rewrite (login_found clk req _ (unlocked_row u)) by done.
  simpl. rewrite Hl, He.
  apply Z.ltb_ge in Hle. by rewrite Hle.
Qed.
End LoginFacts.

Section Lockout.
Context `{PasswordUtils}.

Lemma wrong_password_same u u' a :
  u_username u' = u_username u →
  u_password_hash u' = u_password_hash u →
  wrong_password u a → wrong_password u' a.
Proof. unfold wrong_password. intros -> ->. done. Qed.

(** One failed password check on an ACTIVE account. *)
Lemma login_wrong_password_step clk req db u :
  users_pk db →
  user_named db (u_username u) = Some u →
  account_locked u = false →
  wrong_password u (clk, req) →
  let db' := (login clk req db).1 in
  users_pk db'
  ∧ user_named db' (u_username u) = Some (failed_row (at_verdict clk) u)
  ∧ rows (login_attempts db')
    = rows (login_attempts db)
      ++ [mk_attempt (next_rowid la_id (login_attempts db)) (u_username u)
            (client_ip req) false
            (Some (if 5 <=? u_failed_login_attempts u + 1
                   then "account_locked_after_attempts"
                   else "invalid_password"))
            (Clock.datetime (at_verdict clk))].
Proof.
  intros Hpk Hu Hactive Hwrong.
  rewrite (login_wrong_password clk req db u) by done. simpl.
  destruct (user_named_elem _ _ _ Hu) as [Hin _].
  assert (users (handleFailedLogin (u_id u) (u_username u) (client_ip req)
                   (at_verdict clk) db)
          = users (update_user (u_id u) (failed_row (at_verdict clk)) db))
    as Husers by by eapply handleFailedLogin_users.
  split; [|split].
  - unfold users_pk. rewrite Husers.
    apply update_user_pk; [apply failed_row_id | done].
  - unfold user_named. rewrite Husers.
    apply (user_named_update _ db); [apply failed_row_username | done].
  - by eapply handleFailedLogin_log.
Qed.

(** Failures that keep the counter under the threshold leave the
    account ACTIVE and are all counted. *)
Lemma run_logins_below_threshold attempts : ∀ db u,
  users_pk db →
  user_named db (u_username u) = Some u →
  account_locked u = false →
  u_failed_login_attempts u + Z.of_nat (length attempts) < 5 →
  Forall (wrong_password u) attempts →
  users_pk (run_logins attempts db)
  ∧ ∃ u', user_named (run_logins attempts db) (u_username u) = Some u'
          ∧ account_locked u' = false
          ∧ u_failed_login_attempts u'
            = u_failed_login_attempts u + Z.of_nat (length attempts)
          ∧ u_username u' = u_username u
          ∧ u_password_hash u' = u_password_hash u.
Proof.
  induction attempts as [|[clk req] attempts IH];
    intros db u Hpk Hu Hactive Hlt Hall; simpl in *.
  - split; [done|]. exists u. rewrite Z.add_0_r. done.
  - apply Forall_cons in Hall as [Hwrong Hall].
    destruct (login_wrong_password_step clk req db u)
      as (Hpk' & Hu' & _); [done..|].
    set (u1 := failed_row (at_verdict clk) u) in *.
    assert (u_username u1 = u_username u) as Hn1
      by apply failed_row_username.
    assert (u_password_hash u1 = u_password_hash u) as Hh1
      by apply failed_row_password_hash.
    assert (u_failed_login_attempts u1 = u_failed_login_attempts u + 1)
      as Hc1 by apply failed_row_attempts.
    destruct (IH (login clk req db).1 u1) as (Hpk'' & u' & Hu'' & ? & Hc & ? & ?).
    + done.
    + by rewrite Hn1.
    + unfold u1. rewrite failed_row_below; [done | lia].
    + lia.
    + eapply Forall_impl; [exact Hall|].
      intros a. by apply wrong_password_same.
    + split; [done|]. exists u'. rewrite Hn1 in Hu''.
      repeat split; [done | done | lia | congruence | congruence].
Qed.
End Lockout.

(** ** The login state machine *)

Section LoginProperties.
Context `{PasswordUtils}.

(** C2.  [failed_login_attempts] counts the consecutive failures of an
    account (a success or an expired lock zeroes it).  For an ACTIVE
    account, the wrong-password attempt that is the fifth in a row,
    which is the fifth attempt when the counter starts at 0, locks the
    account: [is_locked] is set, [lockout_until] is the time of that
    failure plus 15 minutes, and the attempt is logged with reason
    [account_locked_after_attempts].  Any further attempt on the
    account before [lockout_until], whatever its password, is answered
    with the remaining minutes, logged with reason [account_locked],
    and leaves the [users] table, hence the counter, as it is. *)
Theorem lockout_on_fifth_failure db u earlier fifth :
  users_pk db →
  user_named db (u_username u) = Some u →
  account_locked u = false →
  u_failed_login_attempts u + Z.of_nat (length earlier) = 4 →
  Forall (wrong_password u) (earlier ++ [fifth]) →
  let lockout_until := at_verdict fifth.1 + 15 * 60 * 1000 in
  let db5 := run_logins (earlier ++ [fifth]) db in
  (∃ u5 entry,
      user_named db5 (u_username u) = Some u5
      ∧ u_is_locked u5 = true
      ∧ u_lockout_until u5 = Some lockout_until
      ∧ u_failed_login_attempts u5 = 5
      ∧ last (rows (login_attempts db5)) = Some entry
      ∧ la_username entry = u_username u
      ∧ la_success entry = false
      ∧ la_failure_reason entry = Some "account_locked_after_attempts")
  ∧ ∀ clk req,
      body_username req = Some (u_username u) →
      truthy (body_password req) = true →
      at_request clk < lockout_until →
      let remainingMinutes :=
        ceil_div (lockout_until - at_request clk) (1000 * 60) in
      let db6 := (login clk req db5).1 in
      (login clk req db5).2
      = RedirectLoginError
          ("Account is locked. Try again in " +:+ pretty remainingMinutes
             +:+ " minutes.")
      ∧ users db6 = users db5
      ∧ ∃ entry,
          last (rows (login_attempts db6)) = Some entry
          ∧ la_username entry = u_username u
          ∧ la_success entry = false
          ∧ la_failure_reason entry = Some "account_locked".
Proof.
  intros Hpk Hu Hactive Hcount Hall lockout_until db5.
  apply Forall_app in Hall as [Hearlier Hfifth].
  rewrite Forall_singleton in Hfifth. destruct fifth as [clk5 req5].
  destruct (run_logins_below_threshold earlier db u)
    as (Hpk4 & u4 & Hu4 & Hactive4 & Hcount4 & Hname4 & Hhash4);
    [done | done | done | lia | done |].
  assert (run_logins (earlier ++ [(clk5, req5)]) db
          = (login clk5 req5 (run_logins earlier db)).1) as Hrun.
  { unfold run_logins. by rewrite foldl_snoc. }
  subst db5. rewrite Hrun. clear Hrun.
  set (db4 := run_logins earlier db) in *.
  assert (wrong_password u4 (clk5, req5)) as Hfifth4
    by by eapply wrong_password_same.
  rewrite <- Hname4 in Hu4 |- *.
  destruct (login_wrong_password_step clk5 req5 db4 u4)
    as (Hpk5 & Hu5 & Hlog5); [done..|].
  set (db5 := (login clk5 req5 db4).1) in *.
  rewrite failed_row_fifth in Hu5 by lia.
  set (u5 := set_lock true (Some (at_verdict clk5 + 15 * 60 * 1000))
               (set_failed_login_attempts 5 u4)) in *.
  assert ((5 <=? u_failed_login_attempts u4 + 1) = true) as Hth
    by (apply Z.leb_le; lia).
  rewrite Hth in Hlog5.
  split.
  - eexists _, _. split; [exact Hu5|]. simpl.
    rewrite Hlog5, last_snoc. done.
  - intros clk req Hname Hpw Hbefore remainingMinutes db6.
    assert (truthy (body_username req) = true) as Hn.
    { destruct Hfifth4 as (Hname5 & Hn5 & _). simpl in *. congruence. }
    subst db6 remainingMinutes.
    rewrite (login_locked clk req db5 u5 lockout_until Hu5) by done.
    simpl. split; [done|]. split; [done|].
    eexists. rewrite last_snoc. done.
Qed.

(** C3.  A login attempt on a LOCKED account at or after
    [lockout_until] is handled exactly as the same attempt on the
    account with its lock cleared ([is_locked] false, [lockout_until]
    null, [failed_login_attempts] 0): same response, same resulting
    database.  A matching password then logs the user in; a wrong one
    is answered as an invalid credential and counted as the first
    failure of an unlocked account. *)
Theorem expired_lock_is_cleared_first db u lockoutEnd clk req :
  users_pk db →
  user_named db (u_username u) = Some u →
  u_is_locked u = true →
  u_lockout_until u = Some lockoutEnd →
  lockoutEnd ≤ at_request clk →
  body_username req = Some (u_username u) →
  truthy (body_username req) = true →
  truthy (body_password req) = true →
  let cleared := update_user (u_id u) unlocked_row db in
  let after := (login clk req db).1 in
  login clk req db = login clk req cleared
  ∧ user_named cleared (u_username u) = Some (unlocked_row u)
  ∧ u_is_locked (unlocked_row u) = false
  ∧ u_lockout_until (unlocked_row u) = None
  ∧ u_failed_login_attempts (unlocked_row u) = 0
  ∧ if comparePassword (js_or (body_password req) "") (u_password_hash u)
    then
      (login clk req db).2
      = RedirectLoginSuccess
          (mk_session_data (u_id u) (u_username u) (u_display_name u) true)
          (js_or (Some (u_display_name u)) (u_username u))
      ∧ ∃ u', user_named after (u_username u) = Some u'
              ∧ u_is_locked u' = false
              ∧ u_lockout_until u' = None
              ∧ u_failed_login_attempts u' = 0
    else
      (login clk req db).2 = RedirectLoginError "Invalid username or password"
      ∧ ∃ u', user_named after (u_username u) = Some u'
              ∧ u_is_locked u' = false
              ∧ u_lockout_until u' = None
              ∧ u_failed_login_attempts u' = 1.
Proof.
  intros Hpk Hu Hl He Hle Hname Hn Hp cleared after.
  assert (user_named cleared (u_username u) = Some (unlocked_row u)) as Hu'
    by exact (user_named_update unlocked_row db _ u (λ _, eq_refl) Hu).
  assert (users_pk cleared) as Hpk' by by apply update_user_pk.
  split; [by eapply login_lock_expired|].
  split; [done|]. split; [done|]. split; [done|]. split; [done|].
  subst after. rewrite (login_lock_expired clk req db u lockoutEnd) by done.
  fold cleared.
  destruct (comparePassword _ _) eqn:Hcmp.
  - rewrite (login_found clk req cleared (unlocked_row u)) by done.
    simpl. rewrite Hcmp. simpl. split; [done|].
    eexists. split.
    + apply (user_named_update _ cleared _ (unlocked_row u)); done.
    + done.
  - destruct (login_wrong_password_step clk req cleared (unlocked_row u))
      as (_ & Hu1 & _); [done | done | done | |].
    { repeat split; done. }
    assert (wrong_password (unlocked_row u) (clk, req)) as Hwrong
      by (repeat split; done).
    rewrite (login_wrong_password clk req cleared (unlocked_row u))
      in Hu1 |- * by done.
    split; [done|]. eexists. split; [exact Hu1|]. done.
Qed.
End LoginProperties.

(** ** Password reset *)

Lemma next_rowid_fresh {A} (rowid : A → Z) (t : table A) r :
  r ∈ rows t → rowid r < next_rowid rowid t.
Proof.
  unfold next_rowid. generalize (seq t). induction (rows t) as [|x l IH];
    intros s Hr.
  - by apply elem_of_nil in Hr.
  - rewrite fmap_cons, foldr_cons.
    apply elem_of_cons in Hr as [->|Hr]; [lia|].
    specialize (IH s Hr). lia.
Qed.

Section ResetFacts.
Context `{PasswordUtils}.

Lemma reset_password_accepted now body db token pw r :
  body_token body = Some token →
  token ≠ "" →
  body_new_password body = Some pw →
  body_confirmPassword body = Some pw →
  (8 ≤ js_length pw)%nat →
  sql_get (token_usable db now token) (rows (password_reset_tokens db))
  = Some r →
  reset_password now body db
  = (mk_db
       (sql_update (λ u, u_id u = prt_user_id r)
          (set_password_hash (hashPassword pw)) (users db))
       (sql_delete (λ s, s_user_id s = prt_user_id r) (sessions db))
       (login_attempts db)
       (mk_table
          (sql_delete (λ r', prt_token r' = token)
             (rows (password_reset_tokens db)))
          (seq (password_reset_tokens db)))
       (chat_messages db),
     RedirectTo "/login?reset=success").
Proof.
  intros Ht Hne Hp Hc Hlen Hr. unfold reset_password.
  assert (pw ≠ "") as Hpw by (intros ->; simpl in Hlen; lia).
  rewrite Ht, Hp, Hc, !truthy_present, !js_or_present by done.
  simpl negb. simpl orb. cbv iota.
  rewrite String.eqb_refl. simpl negb. cbv iota.
  assert ((js_length pw <? 8)%nat = false) as ->
    by (apply Nat.ltb_ge; lia).
  rewrite Hr. reflexivity.
Qed.

Lemma reset_password_rejected now body db :
  reset_rejected now body db →
  ∃ token error tokenExpired,
    reset_password now body db
    = (db, RenderResetPassword token error tokenExpired).
Proof.
  unfold reset_rejected, reset_password.
  intros Hrej.
  destruct (truthy (body_token body)) eqn:Ht; simpl; [|eauto].
  destruct (truthy (body_new_password body)) eqn:Hp; simpl; [|eauto].
  destruct (truthy (body_confirmPassword body)) eqn:Hc; simpl; [|eauto].
  destruct (String.eqb _ _) eqn:Heq; simpl; [|eauto].
  destruct (_ <? 8)%nat eqn:Hlen; [eauto|].
  destruct (sql_get _ _) eqn:Hget; [|eauto].
  exfalso. apply String.eqb_eq in Heq. apply Nat.ltb_ge in Hlen.
  destruct Hrej as [?|[?|[?|[?|[?|?]]]]]; try done. lia.
Qed.
End ResetFacts.

Section ForgotFacts.
Context `{Transporter}.

Lemma forgot_password_found now hex email db u :
  email ≠ "" →
  sql_get (λ v, u_email v = email) (users db) = Some u →
  forgot_password now hex (Some email) db
  = (with_password_reset_tokens
       (insert_or_replace_token (u_id u) hex
          (Clock.toISOString (now + 3600000)) (Clock.datetime now)
          (password_reset_tokens db))
       db,
     if er_success (sendPasswordResetEmail email hex (now + 3600000))
     then mk_json 200 true
            "If an account with that email exists, a password reset link has been sent."
     else mk_json 500 false
            "Error sending reset email. Please try again later.").
Proof.
  intros Hne Hu. unfold forgot_password.
  rewrite truthy_present, js_or_present by done. simpl negb. cbv iota.
  rewrite Hu. by destruct (er_success _).
Qed.

Lemma forgot_password_unknown now hex email db :
  email ≠ "" →
  sql_get (λ v, u_email v = email) (users db) = None →
  forgot_password now hex (Some email) db
  = (db, mk_json 200 true
           "If an account with that email exists, a password reset link has been sent.").
Proof.
  intros Hne Hu. unfold forgot_password.
  rewrite truthy_present, js_or_present by done. simpl negb. cbv iota.
  by rewrite Hu.
Qed.
End ForgotFacts.

Section ResetProperties.
Context `{PasswordUtils} `{Transporter}.

(** C4.  A reset-password request that carries a usable token and a
    confirmed new password of 8 characters or more is answered with
    the redirect to the login page; the hash of the new password is
    stored for the user of the token; no row with that token is left,
    so that any later request with the same token changes nothing and
    is turned down, with the token-expired page when its other fields
    are in order; and the session rows of that user, and only those,
    are deleted. *)
Theorem consume_token db now body token pw r :
  body_token body = Some token →
  token ≠ "" →
  body_new_password body = Some pw →
  body_confirmPassword body = Some pw →
  (8 ≤ js_length pw)%nat →
  sql_get (token_usable db now token) (rows (password_reset_tokens db))
  = Some r →
  let db' := (reset_password now body db).1 in
  (reset_password now body db).2 = RedirectTo "/login?reset=success"
  ∧ (∃ u', u' ∈ users db' ∧ u_id u' = prt_user_id r)
  ∧ (∀ u', u' ∈ users db' → u_id u' = prt_user_id r →
           u_password_hash u' = hashPassword pw)
  ∧ (∀ r', r' ∈ rows (password_reset_tokens db') → prt_token r' ≠ token)
  ∧ (∀ s, s ∈ sessions db' ↔ s ∈ sessions db ∧ s_user_id s ≠ prt_user_id r)
  ∧ ∀ now' body',
      body_token body' = Some token →
      let again := reset_password now' body' db' in
      again.1 = db'
      ∧ (∃ t e x, again.2 = RenderResetPassword t e x)
      ∧ (∀ pw', body_new_password body' = Some pw' →
                body_confirmPassword body' = Some pw' →
                (8 ≤ js_length pw')%nat →
                again.2 = RenderResetPassword None None true).
Proof.
  intros Ht Hne Hp Hc Hlen Hr db'. subst db'.
  rewrite (reset_password_accepted now body db token pw r) by done.
  simpl. split; [done|].
  apply (sql_get_Some (token_usable db now token)) in Hr
    as (Hin & _ & _ & [u0 Hu0]).
  apply (sql_get_Some (λ u, u_id u = prt_user_id r)) in Hu0 as [Hu0 Hid0].
  assert (∀ now' : Z,
            sql_get
              (token_usable
                 (mk_db
                    (sql_update (λ u, u_id u = prt_user_id r)
                       (set_password_hash (hashPassword pw)) (users db))
                    (sql_delete (λ s, s_user_id s = prt_user_id r)
                       (sessions db))
                    (login_attempts db)
                    (mk_table
                       (sql_delete (λ r', prt_token r' = token)
                          (rows (password_reset_tokens db)))
                       (seq (password_reset_tokens db)))
                    (chat_messages db)) now' token)
              (sql_delete (λ r', prt_token r' = token)
                 (rows (password_reset_tokens db))) = None) as Hgone.
  { intros now'. apply sql_get_None. intros r' Hr' (Htok & _).
    apply sql_delete_spec in Hr' as [Hr' _]. done. }
  split_and!.
  - exists (set_password_hash (hashPassword pw) u0). split; [|done].
    unfold sql_update. apply list_elem_of_fmap.
    exists u0. by rewrite decide_True.
  - intros u' Hu' Hid'. unfold sql_update in Hu'.
    apply list_elem_of_fmap in Hu' as (v & -> & _).
    destruct (decide (u_id v = prt_user_id r)); done.
  - intros r' Hr'. apply sql_delete_spec in Hr'. tauto.
  - intros s. rewrite sql_delete_spec. tauto.
  - intros now' body' Ht'.
    assert (reset_rejected now' body'
              (mk_db
                 (sql_update (λ u, u_id u = prt_user_id r)
                    (set_password_hash (hashPassword pw)) (users db))
                 (sql_delete (λ s, s_user_id s = prt_user_id r)
                    (sessions db))
                 (login_attempts db)
                 (mk_table
                    (sql_delete (λ r', prt_token r' = token)
                       (rows (password_reset_tokens db)))
                    (seq (password_reset_tokens db)))
                 (chat_messages db))) as Hrej.
    { unfold reset_rejected. rewrite Ht', js_or_present by done. simpl.
      do 5 right. apply Hgone. }
    destruct (reset_password_rejected now' body' _ Hrej)
      as (t & e & x & Heq).
    split_and!.
    + by rewrite Heq.
    + rewrite Heq. eauto.
    + intros pw' Hp' Hc' Hlen'. clear Heq. unfold reset_password.
      assert (pw' ≠ "") as Hpw' by (intros ->; simpl in Hlen'; lia).
      rewrite Ht', Hp', Hc', !truthy_present, !js_or_present by done.
      simpl negb. simpl orb. cbv iota.
      rewrite String.eqb_refl. simpl negb. cbv iota.
      assert ((js_length pw' <? 8)%nat = false) as ->
        by (apply Nat.ltb_ge; lia).
      simpl password_reset_tokens. simpl rows. by rewrite Hgone.
Qed.

(** C10.  A reset-password request that is turned down, because a
    field is missing, the confirmation differs, the password has fewer
    than 8 characters, or no usable token matches, leaves the database
    as it was: the same [users], [password_reset_tokens] and
    [sessions]. *)
Theorem rejected_reset_changes_nothing now body db :
  reset_rejected now body db →
  (reset_password now body db).1 = db
  ∧ ∃ token error tokenExpired,
      (reset_password now body db).2
      = RenderResetPassword token error tokenExpired.
Proof.
  intros Hrej.
  destruct (reset_password_rejected now body db Hrej) as (t & e & x & ->).
  simpl. eauto.
Qed.

(** C5 (what the code does).  reset-password checks the length of the
    new password and nothing else of the policy: with a usable token,
    "aaaaaaaa", which has no uppercase letter, no digit and no special
    character, is accepted and its hash stored. *)
Theorem reset_password_accepts_weak_password db now token r :
  token ≠ "" →
  sql_get (token_usable db now token) (rows (password_reset_tokens db))
  = Some r →
  let body := mk_reset_body (Some token) (Some "aaaaaaaa") (Some "aaaaaaaa") in
  unmet_rules "aaaaaaaa" = [NeedsUppercase; NeedsDigit; NeedsSpecial]
  ∧ (reset_password now body db).2 = RedirectTo "/login?reset=success"
  ∧ users (reset_password now body db).1
    = sql_update (λ u, u_id u = prt_user_id r)
        (set_password_hash (hashPassword "aaaaaaaa")) (users db).
Proof.
  intros Hne Hr body. subst body.
  rewrite (reset_password_accepted now _ db token "aaaaaaaa" r);
    [done | done | done | done | done | simpl; lia | done].
Qed.

(** C1 (what the code does).  [INSERT OR REPLACE] replaces a row only
    on a clash with the primary key [id] or the [UNIQUE] column
    [token]; [user_id] carries no uniqueness constraint.  Two reset
    requests of one user that draw different tokens therefore leave
    two rows for that user, both unused and both usable until they
    expire. *)
Theorem second_reset_request_keeps_first_token
    db u email now1 hex1 now2 hex2 now :
  email ≠ "" →
  sql_get (λ v, u_email v = email) (users db) = Some u →
  hex1 ≠ hex2 →
  String.ltb (Clock.datetime now) (Clock.toISOString (now1 + 3600000)) = true →
  String.ltb (Clock.datetime now) (Clock.toISOString (now2 + 3600000)) = true →
  let db1 := (forgot_password now1 hex1 (Some email) db).1 in
  let db2 := (forgot_password now2 hex2 (Some email) db1).1 in
  ∃ r1 r2,
    r1 ∈ rows (password_reset_tokens db2)
    ∧ r2 ∈ rows (password_reset_tokens db2)
    ∧ prt_id r1 ≠ prt_id r2
    ∧ prt_user_id r1 = u_id u ∧ prt_user_id r2 = u_id u
    ∧ prt_token r1 = hex1 ∧ prt_token r2 = hex2
    ∧ prt_used r1 = false ∧ prt_used r2 = false
    ∧ token_usable db2 now hex1 r1 ∧ token_usable db2 now hex2 r2.
Proof.
  intros Hne Hu Hhex Hlive1 Hlive2 db1 db2.
  subst db2 db1.
  rewrite (forgot_password_found now1 hex1 email db u) by done. simpl.
  rewrite (forgot_password_found now2 hex2 email _ u) by done. simpl.
  set (t0 := password_reset_tokens db).
  set (r1 := mk_reset_token (next_rowid prt_id t0) (u_id u) hex1
               (Clock.toISOString (now1 + 3600000)) false
               (Clock.datetime now1)).
  set (t1 := insert_or_replace_token (u_id u) hex1
               (Clock.toISOString (now1 + 3600000)) (Clock.datetime now1) t0).
  set (r2 := mk_reset_token (next_rowid prt_id t1) (u_id u) hex2
               (Clock.toISOString (now2 + 3600000)) false
               (Clock.datetime now2)).
  assert (r1 ∈ rows t1) as Hr1.
  { unfold t1, insert_or_replace_token. simpl. apply elem_of_app. right.
    by apply list_elem_of_singleton. }
  assert (prt_id r1 < prt_id r2) as Hlt
    by exact (next_rowid_fresh prt_id t1 r1 Hr1).
  assert (is_Some (sql_get (λ v, u_id v = u_id u) (users db))) as Hsome.
  { apply (sql_get_Some (λ v, u_email v = email)) in Hu as [Hu _].
    by apply (sql_get_is_Some (λ v, u_id v = u_id u) _ u). }
  exists r1, r2. repeat split; try done.
  - unfold insert_or_replace_token. simpl. apply elem_of_app. left.
    apply sql_delete_spec. split; [|done].
    intros [Hid|Htok]; [|done].
    change (prt_id r2) with (next_rowid prt_id t1) in Hlt.
    rewrite <- Hid in Hlt. lia.
  - unfold insert_or_replace_token. simpl. apply elem_of_app. right.
    by apply list_elem_of_singleton.
  - lia.
Qed.

(** C7.  For an address that is supplied and belongs to a user, and
    one that is supplied and belongs to none, forgot-password answers
    with the same status and the same body whenever the mail to the
    user was handed over to the transport. *)
Theorem forgot_password_same_response
    db u email1 now1 hex1 email2 now2 hex2 :
  email1 ≠ "" →
  email2 ≠ "" →
  sql_get (λ v, u_email v = email1) (users db) = Some u →
  sql_get (λ v, u_email v = email2) (users db) = None →
  er_success (sendPasswordResetEmail email1 hex1 (now1 + 3600000)) = true →
  (forgot_password now1 hex1 (Some email1) db).2
  = (forgot_password now2 hex2 (Some email2) db).2
  ∧ (forgot_password now1 hex1 (Some email1) db).2
    = mk_json 200 true
        "If an account with that email exists, a password reset link has been sent.".
Proof.
  intros Hne1 Hne2 Hu1 Hu2 Hsent.
  rewrite (forgot_password_found now1 hex1 email1 db u) by done.
  rewrite (forgot_password_unknown now2 hex2 email2 db) by done.
  simpl. by rewrite Hsent.
Qed.
End ResetProperties.

(** ** The chat room *)

Lemma received_cons st c event e ems :
  received st c event (e :: ems)
  = if decide (receives st c e ∧ em_event e = event)
    then em_payload e :: received st c event ems
    else received st c event ems.
Proof. unfold received. rewrite filter_cons. by case_decide. Qed.

Lemma on_chat_message_accepted socket d now db u :
  truthy (data_message d) = true →
  truthy_num (data_userId d) = true →
  sql_get (λ v, u_id v = default 0 (data_userId d)) (users db) = Some u →
  on_chat_message socket (Some d) now db
  = let lastInsertRowid := next_rowid cm_id (chat_messages db) in
    let message := js_or (data_message d) "" in
    let userId := default 0 (data_userId d) in
    let messageData :=
      mk_message_data lastInsertRowid message userId
        (js_or (Some (u_display_name u)) (u_username u)) (u_username u)
        (js_or (u_profile_color u) "#000000")
        (js_or (u_profile_avatar u) "👤") (Clock.toISOString now) in
    (with_chat_messages
       (mk_table
          (rows (chat_messages db)
             ++ [mk_chat_message lastInsertRowid userId message
                   (Clock.datetime now)])
          lastInsertRowid)
       db,
     [mk_emission (RoomExcept socket) "new-message" (Message messageData);
      mk_emission (Socket socket) "message-sent" (Message messageData)]).
Proof.
  intros Hm Hi Hu. unfold on_chat_message. rewrite Hm, Hi. simpl negb.
  simpl orb. cbv iota. by rewrite Hu.
Qed.

(** The sender is never among the receivers of what it broadcasts. *)
Lemma no_new_message_to_sender st socket data now db :
  received st socket "new-message" (on_chat_message socket data now db).2 = [].
Proof.
  unfold on_chat_message. destruct data as [d|]; [|done].
  destruct (negb _ || negb _); [done|].
  destruct (sql_get _ _); [|done]. simpl.
  rewrite !received_cons. simpl.
  rewrite decide_False by (intros [[_ ?] _]; done).
  by rewrite decide_False by (intros [_ ?]; done).
Qed.

Section ChatProperties.

(** C8.  Whatever a chat-message event carries, the connection that
    sent it gets no [new-message].  When the message is accepted, that
    connection gets exactly one [message-sent]; every other member of
    the room gets exactly one [new-message] and no [message-sent]; and
    all of these carry one and the same payload, whose id, text and
    user id are those of the row just stored. *)
Theorem chat_message_delivery db st socket data now :
  let db' := (on_chat_message socket data now db).1 in
  let ems := (on_chat_message socket data now db).2 in
  received st socket "new-message" ems = []
  ∧ (chat_message_accepted db data →
     ∃ messageData row,
       received st socket "message-sent" ems = [Message messageData]
       ∧ (∀ c, c ∈ main_chat st → c ≠ socket →
               received st c "new-message" ems = [Message messageData]
               ∧ received st c "message-sent" ems = [])
       ∧ last (rows (chat_messages db')) = Some row
       ∧ md_id messageData = cm_id row
       ∧ md_message messageData = cm_message row
       ∧ md_user_id messageData = cm_user_id row).
Proof.
  intros db' ems. subst db' ems.
  split; [apply no_new_message_to_sender|].
  intros Hacc.
  destruct data as [d|]; [|done]. destruct Hacc as (Hm & Hi & [u Hu]).
  rewrite (on_chat_message_accepted socket d now db u) by done.
  simpl. eexists _, _. split_and!.
  - rewrite !received_cons. simpl.
    rewrite decide_False by (intros [_ ?]; done).
    by rewrite decide_True by done.
  - intros c Hc Hne. split.
    + rewrite !received_cons. simpl.
      rewrite decide_True by done.
      by rewrite decide_False by (intros [_ ?]; done).
    + rewrite !received_cons. simpl.
      rewrite decide_False by (intros [_ ?]; done).
      by rewrite decide_False by (intros [? _]; done).
  - by rewrite last_snoc.
  - done.
  - done.
  - done.
Qed.

(** C9.  A chat-message event without a message text or a user id,
    or with the id of no stored user, has no effect: the database is
    unchanged (no row in [chat_messages]) and nothing is emitted, to
    the sender or to anyone else. *)
Theorem chat_message_dropped db socket data now :
  chat_message_unusable db data →
  on_chat_message socket data now db = (db, []).
Proof.
  unfold chat_message_unusable, on_chat_message.
  destruct data as [d|]; [|done].
  intros [Hm|[Hi|Hu]].
  - by rewrite Hm.
  - rewrite Hi. by rewrite orb_true_r.
  - destruct (negb _ || negb _); [done|]. by rewrite Hu.
Qed.

(** C6 (as amended).  The disconnect handler neither clears the
    identity of the socket nor remembers that it ran.  Every run of it
    for a socket with an identity emits one [user-left] to the other
    members of the room, so that two runs deliver two to each of them;
    for a socket that never joined, no run emits anything. *)
Theorem disconnect_emits_on_every_run st socket t1 t2 :
  let first := on_disconnect socket t1 st in
  let second := on_disconnect socket t2 first.1 in
  first.1 = st
  ∧ second.1 = st
  ∧ match userData st !! socket with
    | None => first.2 = [] ∧ second.2 = []
    | Some data =>
        let name := js_or_opt (ud_displayName data) (ud_username data) in
        first.2 = [mk_emission (RoomExcept socket) "user-left"
                     (Presence name (Clock.toISOString t1))]
        ∧ second.2 = [mk_emission (RoomExcept socket) "user-left"
                        (Presence name (Clock.toISOString t2))]
        ∧ received st socket "user-left" (first.2 ++ second.2) = []
        ∧ ∀ c, c ∈ main_chat st → c ≠ socket →
               received st c "user-left" (first.2 ++ second.2)
               = [Presence name (Clock.toISOString t1);
                  Presence name (Clock.toISOString t2)]
    end.
Proof.
  intros first second. subst first second. unfold on_disconnect.
  destruct (userData st !! socket) as [data|] eqn:E; simpl; rewrite ?E;
    [|done].
  simpl. split_and!; try done.
  - rewrite !received_cons. simpl.
    by rewrite !decide_False by (intros [[_ ?] _]; done).
  - intros c Hc Hne. rewrite !received_cons. simpl.
    by rewrite !decide_True by done.
Qed.
End ChatProperties.

(** * The properties on the sample data *)

Section Samples.
Local Existing Instance demo_password_utils.
Local Existing Instance demo_transporter.

(** steve, from a clean counter: five wrong passwords lock him, and the
    right password a minute later is turned away. *)
Lemma lockout_on_fifth_failure_witness :
  users_pk demo_db
  ∧ user_named demo_db "steve" = Some steve
  ∧ account_locked steve = false
  ∧ Forall (wrong_password steve) five_wrong_logins
  ∧ user_named (run_logins five_wrong_logins demo_db) "steve"
    = Some steve_locked
  ∧ (login (mk_clock (demo_now + 60000) (demo_now + 60090))
       (mk_login_request (Some "steve") (Some "steve123") None None)
       (run_logins five_wrong_logins demo_db)).2
    = RedirectLoginError "Account is locked. Try again in 15 minutes.".
Proof.
  assert (users_pk demo_db) as Hpk by (unfold users_pk; compute_done).
  assert (user_named demo_db "steve" = Some steve) as Hu by reflexivity.
  assert (Forall (wrong_password steve) five_wrong_logins) as Hall
    by (repeat constructor).
  pose proof (lockout_on_fifth_failure demo_db steve
                (wrong_login <$> [demo_now; demo_now + 1000;
                                  demo_now + 2000; demo_now + 3000])
                (wrong_login (demo_now + 4000))
                Hpk Hu eq_refl eq_refl Hall) as [_ Hsixth].
  split_and!; [done | done | done | done | reflexivity |].
  exact (proj1 (Hsixth (mk_clock (demo_now + 60000) (demo_now + 60090))
                  (mk_login_request (Some "steve") (Some "steve123")
                     None None)
                  eq_refl eq_refl eq_refl)).
Defined.

(** steve again, with the right password once the lock has run out. *)
Lemma expired_lock_is_cleared_first_witness :
  user_named demo_locked_db "steve" = Some steve_locked
  ∧ (login (mk_clock (demo_now + 904090) (demo_now + 904180))
       (mk_login_request (Some "steve") (Some "steve123") None None)
       demo_locked_db).2
    = RedirectLoginSuccess (mk_session_data 1 "steve" "Steve" true) "Steve".
Proof.
  assert (users_pk demo_locked_db) as Hpk by (unfold users_pk; compute_done).
  split; [reflexivity|].
  exact (proj1 (proj2 (proj2 (proj2 (proj2 (proj2
           (expired_lock_is_cleared_first demo_locked_db steve_locked
              (demo_now + 4090 + 15 * 60 * 1000)
              (mk_clock (demo_now + 904090) (demo_now + 904180))
              (mk_login_request (Some "steve") (Some "steve123") None None)
              Hpk eq_refl eq_refl eq_refl ltac:(vm_compute; discriminate)
              eq_refl eq_refl eq_refl))))))).
Defined.

(** steve uses the link he was sent. *)
Lemma consume_token_witness :
  sql_get (token_usable demo_reset_db (demo_now + 5000) "aa11")
    (rows (password_reset_tokens demo_reset_db))
  = Some (mk_reset_token 1 1 "aa11" "2025-12-19T13:34:56.789Z" false
            "2025-12-19 12:34:56")
  ∧ (reset_password (demo_now + 5000)
       (mk_reset_body (Some "aa11") (Some "Tr0ub4dor&3") (Some "Tr0ub4dor&3"))
       demo_reset_db).2
    = RedirectTo "/login?reset=success".
Proof.
  split; [reflexivity|].
  exact (proj1 (consume_token demo_reset_db (demo_now + 5000)
                  (mk_reset_body (Some "aa11") (Some "Tr0ub4dor&3")
                     (Some "Tr0ub4dor&3"))
                  "aa11" "Tr0ub4dor&3"
                  (mk_reset_token 1 1 "aa11" "2025-12-19T13:34:56.789Z"
                     false "2025-12-19 12:34:56")
                  eq_refl ltac:(discriminate) eq_refl eq_refl
                  ltac:(vm_compute; lia) eq_refl)).
Defined.

(** A password of seven characters, two of which take two bytes. *)
Lemma rejected_reset_changes_nothing_witness :
  reset_rejected (demo_now + 5000)
    (mk_reset_body (Some "aa11") (Some "pässwör") (Some "pässwör"))
    demo_reset_db
  ∧ (reset_password (demo_now + 5000)
       (mk_reset_body (Some "aa11") (Some "pässwör") (Some "pässwör"))
       demo_reset_db).1
    = demo_reset_db.
Proof.
  assert (reset_rejected (demo_now + 5000)
            (mk_reset_body (Some "aa11") (Some "pässwör") (Some "pässwör"))
            demo_reset_db) as Hrej.
  { unfold reset_rejected. do 4 right. left. vm_compute. lia. }
  split; [exact Hrej|].
  exact (proj1 (rejected_reset_changes_nothing _ _ _ Hrej)).
Defined.

(** Eight lowercase letters pass. *)
Lemma reset_password_accepts_weak_password_witness :
  unmet_rules "aaaaaaaa" = [NeedsUppercase; NeedsDigit; NeedsSpecial]
  ∧ (reset_password (demo_now + 5000)
       (mk_reset_body (Some "aa11") (Some "aaaaaaaa") (Some "aaaaaaaa"))
       demo_reset_db).2
    = RedirectTo "/login?reset=success".
Proof.
  pose proof (reset_password_accepts_weak_password demo_reset_db
                (demo_now + 5000) "aa11"
                (mk_reset_token 1 1 "aa11" "2025-12-19T13:34:56.789Z"
                   false "2025-12-19 12:34:56")
                ltac:(discriminate) eq_refl) as (Hrules & Hresp & _).
  exact (conj Hrules Hresp).
Defined.

(** steve asks for a second link a second after the first. *)
Lemma second_reset_request_keeps_first_token_witness :
  sql_get (λ v, u_email v = "steve@example.com") (users demo_db) = Some steve
  ∧ ∃ r1 r2,
      r1 ∈ rows (password_reset_tokens
                   (forgot_password (demo_now + 1000) "bb22"
                      (Some "steve@example.com") demo_reset_db).1)
      ∧ r2 ∈ rows (password_reset_tokens
                     (forgot_password (demo_now + 1000) "bb22"
                        (Some "steve@example.com") demo_reset_db).1)
      ∧ prt_id r1 ≠ prt_id r2
      ∧ prt_user_id r1 = 1 ∧ prt_user_id r2 = 1.
Proof.
  split; [reflexivity|].
  destruct (second_reset_request_keeps_first_token demo_db steve
              "steve@example.com" demo_now "aa11" (demo_now + 1000) "bb22"
              (demo_now + 5000)
              ltac:(discriminate) eq_refl ltac:(discriminate)
              eq_refl eq_refl)
    as (r1 & r2 & H1 & H2 & Hne & Hu1 & Hu2 & _).
  exists r1, r2. exact (conj H1 (conj H2 (conj Hne (conj Hu1 Hu2)))).
Defined.

(** steve's address against one that nobody has. *)
Lemma forgot_password_same_response_witness :
  sql_get (λ v, u_email v = "steve@example.com") (users demo_db) = Some steve
  ∧ sql_get (λ v, u_email v = "nobody@example.com") (users demo_db) = None
  ∧ (forgot_password demo_now "aa11" (Some "steve@example.com") demo_db).2
    = (forgot_password (demo_now + 1000) "bb22" (Some "nobody@example.com")
         demo_db).2.
Proof.
  split; [reflexivity|]. split; [reflexivity|].
  exact (proj1 (forgot_password_same_response demo_db steve
                  "steve@example.com" demo_now "aa11"
                  "nobody@example.com" (demo_now + 1000) "bb22"
                  ltac:(discriminate) ltac:(discriminate)
                  eq_refl eq_refl eq_refl)).
Defined.

(** steve says hi on sock-A; john listens on sock-B. *)
Lemma chat_message_delivery_witness :
  chat_message_accepted demo_db (Some (mk_chat_data (Some "hi") (Some 1)))
  ∧ received demo_room "sock-A" "new-message"
      (on_chat_message "sock-A" (Some (mk_chat_data (Some "hi") (Some 1)))
         demo_now demo_db).2 = []
  ∧ ∃ messageData,
      received demo_room "sock-A" "message-sent"
        (on_chat_message "sock-A" (Some (mk_chat_data (Some "hi") (Some 1)))
           demo_now demo_db).2 = [Message messageData]
      ∧ received demo_room "sock-B" "new-message"
          (on_chat_message "sock-A" (Some (mk_chat_data (Some "hi") (Some 1)))
             demo_now demo_db).2 = [Message messageData].
Proof.
  assert (chat_message_accepted demo_db
            (Some (mk_chat_data (Some "hi") (Some 1)))) as Hacc.
  { split; [reflexivity|]. split; [reflexivity|]. by exists steve. }
  split; [exact Hacc|].
  destruct (chat_message_delivery demo_db demo_room "sock-A"
              (Some (mk_chat_data (Some "hi") (Some 1))) demo_now)
    as [Hnone Hsent].
  split; [exact Hnone|].
  destruct (Hsent Hacc) as (messageData & _ & Hone & Hothers & _).
  exists messageData. split; [exact Hone|].
  exact (proj1 (Hothers "sock-B" ltac:(vm_compute; set_solver)
                  ltac:(discriminate))).
Defined.

(** An empty message. *)
Lemma chat_message_dropped_witness :
  chat_message_unusable demo_db (Some (mk_chat_data (Some "") (Some 1)))
  ∧ on_chat_message "sock-A" (Some (mk_chat_data (Some "") (Some 1)))
      demo_now demo_db
    = (demo_db, []).
Proof.
  assert (chat_message_unusable demo_db
            (Some (mk_chat_data (Some "") (Some 1)))) as Hbad
    by (left; reflexivity).
  exact (conj Hbad (chat_message_dropped demo_db "sock-A" _ demo_now Hbad)).
Defined.

(** sock-A is told twice that it left: what sock-B gets. *)
Lemma disconnect_emits_on_every_run_witness :
  received demo_room "sock-B" "user-left"
    ((on_disconnect "sock-A" demo_now demo_room).2
       ++ (on_disconnect "sock-A" (demo_now + 1000)
             (on_disconnect "sock-A" demo_now demo_room).1).2)
  = [Presence (Some "Steve") "2025-12-19T12:34:56.789Z";
     Presence (Some "Steve") "2025-12-19T12:34:57.789Z"].
Proof.
  pose proof (disconnect_emits_on_every_run demo_room "sock-A" demo_now
                (demo_now + 1000)) as (_ & _ & Hruns).
  change (userData demo_room !! "sock-A")
    with (Some (mk_user_data (Some 1) (Some "steve") (Some "Steve")
                  (Some "#336699") None)) in Hruns.
  destruct Hruns as (_ & _ & _ & Hothers).
  exact (Hothers "sock-B" ltac:(vm_compute; set_solver)
           ltac:(discriminate)).
Defined.

(** C6 as stated fails: run twice for a socket that joined, the
    handler emits [user-left] twice, and the other member of the room
    gets both. *)
Lemma disconnect_twice_emits_twice :
  let first := on_disconnect "sock-A" demo_now demo_room in
  let second := on_disconnect "sock-A" (demo_now + 1000) first.1 in
  length (emitted "user-left" (first.2 ++ second.2)) = 2%nat
  ∧ ¬ (length (emitted "user-left" (first.2 ++ second.2)) ≤ 1)%nat
  ∧ length (received demo_room "sock-B" "user-left" (first.2 ++ second.2))
    = 2%nat.
Proof.
  assert (length (emitted "user-left"
            ((on_disconnect "sock-A" demo_now demo_room).2
               ++ (on_disconnect "sock-A" (demo_now + 1000)
                     (on_disconnect "sock-A" demo_now demo_room).1).2))
          = 2%nat) as Hcount by (vm_compute; reflexivity).
  simpl. split; [exact Hcount|]. split; [rewrite Hcount; lia|].
  vm_compute. reflexivity.
Qed.

(** The expiry test compares texts, and ["T"] sorts after [" "]: on the
    day of its expiry a token is still usable after its hour has passed. *)
Example token_outlives_its_hour :
  Clock.datetime (demo_now + 2 * 3600000) = "2025-12-19 14:34:56"
  ∧ token_usable demo_reset_db (demo_now + 2 * 3600000) "aa11"
      (mk_reset_token 1 1 "aa11" "2025-12-19T13:34:56.789Z" false
         "2025-12-19 12:34:56").
Proof.
  split; [reflexivity|]. split; [reflexivity|]. split; [reflexivity|].
  by exists steve.
Qed.
End Samples.

(** * Further properties of the handlers *)

(** ** The login handler and its ledger *)

Section LoginLedger.
Context `{PasswordUtils}.








(** X2.  The handler answers an unknown user name and a wrong password
    for an account that is not locked with the same redirect, and for
    the unknown name it leaves [users] unchanged. *)
Theorem login_unknown_user_like_wrong_password
    clk1 req1 clk2 req2 db u :
  truthy (body_username req1) = true →
  truthy (body_password req1) = true →
  user_named db (js_or (body_username req1) "") = None →
  user_named db (u_username u) = Some u →
  account_locked u = false →
  wrong_password u (clk2, req2) →
  (login clk1 req1 db).2 = (login clk2 req2 db).2
  ∧ (login clk1 req1 db).2 = RedirectLoginError "Invalid username or password"
  ∧ users (login clk1 req1 db).1 = users db.
Proof.
  intros Hn Hp Hnone Hu Hactive Hwrong.
  rewrite (login_wrong_password clk2 req2 db u) by done.
  unfold login. rewrite Hn, Hp. simpl negb. simpl orb. cbv iota.
  unfold user_named in Hnone. rewrite Hnone. done.
Qed.

(** X3.  A request that lacks the user name or the password is logged
    with reason [missing_credentials] and goes no further: [users] is
    left as it is, so that even a lock that has run out stays in
    place. *)
Theorem login_missing_credentials clk req db :
  truthy (body_username req) = false ∨ truthy (body_password req) = false →
  login clk req db
  = (logLoginAttempt (js_or (body_username req) "") (client_ip req) false
       (Some "missing_credentials") (at_request clk) db,
     RedirectLoginError "Username and password are required")
  ∧ users (login clk req db).1 = users db.
Proof.
  intros Hmiss. unfold login, client_ip.
  assert (negb (truthy (body_username req))
          || negb (truthy (body_password req)) = true) as ->.
  { destruct Hmiss as [-> | ->]; [done|]. by rewrite orb_true_r. }
  done.
Qed.
End LoginLedger.

Section LoginInvariants.
Context `{PasswordUtils}.

Lemma update_user_credentials i (f : user → user) db :
  (∀ u, credentials (f u) = credentials u) →
  credentials <$> users (update_user i f db) = credentials <$> users db.
Proof. intros Hf. unfold update_user. simpl. by apply sql_update_key. Qed.

Lemma handleFailedLogin_credentials userId name ip now db :
  credentials <$> users (handleFailedLogin userId name ip now db)
  = credentials <$> users db.
Proof.
  unfold handleFailedLogin.
  destruct (sql_get _ _) as [u1|]; [destruct (5 <=? _)|]; simpl;
    rewrite ?sql_update_key by done; done.
Qed.

(** X4.  The login handler never changes the id, the user name, the
    address or the password hash of any account, whatever the request:
    these columns read the same before and after, row by row. *)
Theorem login_keeps_credentials clk req db :
  credentials <$> users (login clk req db).1 = credentials <$> users db.
Proof.
  unfold login.
  destruct (negb _ || negb _); [done|].
  destruct (sql_get _ (users db)) as [user|]; [|done].
  destruct (u_is_locked user), (u_lockout_until user) as [lockoutEnd|];
    try destruct (_ <? lockoutEnd); try done;
    destruct (negb (comparePassword _ _)); simpl;
    rewrite ?handleFailedLogin_credentials; simpl;
    rewrite ?sql_update_key by done; done.
Qed.


Lemma sql_update_elem (Q : user → Prop) `{!∀ r, Decision (Q r)}
    (f : user → user) l r :
  r ∈ sql_update Q f l → ∃ r0, r0 ∈ l ∧ ((Q r0 ∧ r = f r0) ∨ (¬ Q r0 ∧ r = r0)).
Proof.
  unfold sql_update. intros Hr. apply list_elem_of_fmap in Hr as (r0 & -> & Hr0).
  exists r0. split; [done|]. destruct (decide (Q r0)); auto.
Qed.

End LoginInvariants.

Section LoginSuccess.
Context `{PasswordUtils}.

(** X6.  A request with the right password for an account that is not
    locked, or whose lock has run out, is answered with the success
    redirect and a session bound to the id of the account; the row of
    the account has its counter at 0, no lock and [last_login] set to
    the time of the verdict, and the ledger ends with a [success]
    row. *)
Theorem login_success_resets_account clk req db u :
  user_named db (u_username u) = Some u →
  body_username req = Some (u_username u) →
  truthy (body_username req) = true →
  truthy (body_password req) = true →
  comparePassword (js_or (body_password req) "") (u_password_hash u) = true →
  (account_locked u = false
   ∨ ∃ lockoutEnd, u_lockout_until u = Some lockoutEnd
                   ∧ lockoutEnd ≤ at_request clk) →
  let db' := (login clk req db).1 in
  (login clk req db).2
  = RedirectLoginSuccess
      (mk_session_data (u_id u) (u_username u) (u_display_name u) true)
      (js_or (Some (u_display_name u)) (u_username u))
  ∧ (∃ u', user_named db' (u_username u) = Some u'
           ∧ lock_state u' = (false, None, 0)
           ∧ u_last_login u' = Some (Clock.datetime (at_verdict clk)))
  ∧ ∃ entry, last (rows (login_attempts db')) = Some entry
             ∧ la_success entry = true
             ∧ la_failure_reason entry = Some "success".
Proof.
  intros Hu Hname Hn Hp Hcmp Hopen db'. subst db'.
  rewrite (login_found clk req db u) by done. simpl. rewrite Hcmp. simpl.
  pose proof (user_named_update unlocked_row db _ u (λ _, eq_refl) Hu) as Hu0.
  assert (∀ db0 u0,
            user_named db0 (u_username u) = Some u0 → u_id u0 = u_id u →
            ∃ u', user_named
                    (update_user (u_id u)
                       (λ v, set_lock false None
                               (set_failed_login_attempts 0
                                  (set_last_login
                                     (Some (Clock.datetime (at_verdict clk))) v)))
                       db0) (u_username u) = Some u'
                  ∧ lock_state u' = (false, None, 0)
                  ∧ u_last_login u' = Some (Clock.datetime (at_verdict clk)))
    as Hrow.
  { intros db0 u0 Hu0' Hid. eexists. split.
    - rewrite <- Hid.
      replace (u_username u) with (u_username u0) in *
        by (apply user_named_elem in Hu0'; tauto).
      by apply (user_named_update _ db0 _ u0).
    - done. }
  destruct (u_is_locked u) eqn:Hl, (u_lockout_until u) as [e|] eqn:He;
    try (simpl; split; [done|]; split;
         [by apply (Hrow db u) | eexists; by rewrite last_snoc]).
  destruct Hopen as [Hact|(e' & [= <-] & Hle)].
  { unfold account_locked in Hact. by rewrite Hl, He in Hact. }
  apply Z.ltb_ge in Hle. rewrite Hle. simpl. split; [done|].
  split; [by apply (Hrow _ (unlocked_row u)) | eexists; by rewrite last_snoc].
Qed.
End LoginSuccess.

(** ** The reset link *)

Lemma sql_get_app {A} (P : A → Prop) `{!∀ r, Decision (P r)} (l1 l2 : list A) :
  sql_get P (l1 ++ l2)
  = match sql_get P l1 with
    | Some r => Some r
    | None => sql_get P l2
    end.
Proof.
  unfold sql_get. rewrite filter_app.
  by destruct (filter P l1).
Qed.

Lemma sql_get_ext {A} (P Q : A → Prop) `{!∀ r, Decision (P r)}
    `{!∀ r, Decision (Q r)} (l : list A) :
  (∀ r, r ∈ l → P r ↔ Q r) → sql_get P l = sql_get Q l.
Proof.
  intros Hpq. unfold sql_get. f_equal.
  induction l as [|x l IH]; [done|].
  rewrite !filter_cons.
  assert (P x ↔ Q x) as Hx by (apply Hpq; left).
  rewrite IH by (intros r Hr; apply Hpq; by right).
  destruct (decide (P x)), (decide (Q x)); tauto.
Qed.

Section ResetLink.
Context `{PasswordUtils} `{Transporter}.

(** The row that forgot-password writes is the one the token finds. *)
Lemma forgot_password_token_row now hex email db u now' :
  email ≠ "" →
  sql_get (λ v, u_email v = email) (users db) = Some u →
  String.ltb (Clock.datetime now') (Clock.toISOString (now + 3600000)) = true →
  let db1 := (forgot_password now hex (Some email) db).1 in
  let row := mk_reset_token (next_rowid prt_id (password_reset_tokens db))
               (u_id u) hex (Clock.toISOString (now + 3600000)) false
               (Clock.datetime now) in
  users db1 = users db
  ∧ sessions db1 = sessions db
  ∧ last (rows (password_reset_tokens db1)) = Some row
  ∧ sql_get (token_usable db1 now' hex) (rows (password_reset_tokens db1))
    = Some row
  ∧ sql_get (λ r, prt_token r = hex
                  ∧ String.ltb (Clock.datetime now') (prt_expires_at r) = true)
      (rows (password_reset_tokens db1))
    = Some row.
Proof.
  intros Hne Hu Hlive db1 row. subst db1.
  rewrite (forgot_password_found now hex email db u) by done. simpl.
  split; [done|]. split; [done|]. split; [by rewrite last_snoc|].
  assert (is_Some (sql_get (λ v, u_id v = u_id u) (users db))) as Hsome.
  { apply (sql_get_Some (λ v, u_email v = email)) in Hu as [Hu _].
    by apply (sql_get_is_Some (λ v, u_id v = u_id u) _ u). }
  split.
  - rewrite sql_get_app.
    assert (sql_get
              (token_usable
                 (with_password_reset_tokens
                    (insert_or_replace_token (u_id u) hex
                       (Clock.toISOString (now + 3600000))
                       (Clock.datetime now) (password_reset_tokens db)) db)
                 now' hex)
              (sql_delete
                 (λ r, prt_id r = next_rowid prt_id (password_reset_tokens db)
                       ∨ prt_token r = hex)
                 (rows (password_reset_tokens db))) = None) as ->.
    { apply sql_get_None. intros r Hr (Htok & _).
      apply sql_delete_spec in Hr as [Hr _]. tauto. }
    unfold sql_get. rewrite filter_cons, decide_True; [done|].
    by split.
  - rewrite sql_get_app.
    assert (sql_get
              (λ r, prt_token r = hex
                    ∧ String.ltb (Clock.datetime now') (prt_expires_at r) = true)
              (sql_delete
                 (λ r, prt_id r = next_rowid prt_id (password_reset_tokens db)
                       ∨ prt_token r = hex)
                 (rows (password_reset_tokens db))) = None) as ->.
    { apply sql_get_None. intros r Hr (Htok & _).
      apply sql_delete_spec in Hr as [Hr _]. tauto. }
    unfold sql_get. rewrite filter_cons, decide_True; [done|].
    by split.
Qed.

(** X7.  When the transport fails, forgot-password answers 500, yet
    the token it has written for the user stays in the table and is
    usable: the write is not undone. *)
Theorem forgot_password_keeps_token_on_mail_failure
    now hex email db u now' :
  email ≠ "" →
  sql_get (λ v, u_email v = email) (users db) = Some u →
  er_success (sendPasswordResetEmail email hex (now + 3600000)) = false →
  String.ltb (Clock.datetime now') (Clock.toISOString (now + 3600000)) = true →
  let db1 := (forgot_password now hex (Some email) db).1 in
  (forgot_password now hex (Some email) db).2
  = mk_json 500 false "Error sending reset email. Please try again later."
  ∧ ∃ row, sql_get (token_usable db1 now' hex)
             (rows (password_reset_tokens db1)) = Some row
           ∧ prt_user_id row = u_id u
           ∧ prt_token row = hex.
Proof.
  intros Hne Hu Hfail Hlive db1.
  destruct (forgot_password_token_row now hex email db u now')
    as (_ & _ & _ & Hrow & _); [done..|].
  split.
  - rewrite (forgot_password_found now hex email db u) by done.
    simpl. by rewrite Hfail.
  - eexists. split; [exact Hrow|]. done.
Qed.

(** X8.  Without an address, or with one that no user has,
    forgot-password writes nothing: the database is returned as it
    came, with status 400 in the first case and 200 in the second. *)
Theorem forgot_password_without_account now hex body_email db :
  truthy body_email = false
  ∨ sql_get (λ v, u_email v = js_or body_email "") (users db) = None →
  (forgot_password now hex body_email db).1 = db
  ∧ status (forgot_password now hex body_email db).2
    = if truthy body_email then 200 else 400.
Proof.
  unfold forgot_password. intros [Hmiss|Hnone].
  - by rewrite Hmiss.
  - destruct (truthy body_email); [|done]. simpl. by rewrite Hnone.
Qed.

(** X9.  The link works: after forgot-password for the address of a
    user, whether or not the mail went out, and for as long as the
    expiry text compares above the clock text, the page of the token
    shows the form, and submitting a confirmed password of 8
    characters or more stores its hash for that user. *)
Theorem forgot_then_reset now hex email db u now' pw :
  email ≠ "" →
  hex ≠ "" →
  sql_get (λ v, u_email v = email) (users db) = Some u →
  String.ltb (Clock.datetime now') (Clock.toISOString (now + 3600000)) = true →
  (8 ≤ js_length pw)%nat →
  let db1 := (forgot_password now hex (Some email) db).1 in
  let body := mk_reset_body (Some hex) (Some pw) (Some pw) in
  reset_password_page now' (Some hex) db1 = ResetPage (Some hex) false false
  ∧ (reset_password now' body db1).2 = RedirectTo "/login?reset=success"
  ∧ users (reset_password now' body db1).1
    = sql_update (λ v, u_id v = u_id u) (set_password_hash (hashPassword pw))
        (users db).
Proof.
  intros Hne Hhex Hu Hlive Hlen db1 body.
  destruct (forgot_password_token_row now hex email db u now')
    as (Husers & _ & _ & Husable & Hpage); [done..|].
  fold db1 in Husers, Husable, Hpage.
  split.
  - unfold reset_password_page.
    rewrite truthy_present, js_or_present by done. simpl negb. cbv iota.
    by rewrite Hpage.
  - subst body.
    rewrite (reset_password_accepted now'
               (mk_reset_body (Some hex) (Some pw) (Some pw)) db1 hex pw _
               eq_refl Hhex eq_refl eq_refl Hlen Husable).
    simpl. by rewrite Husers.
Qed.

(** X10.  Once a token has been used, its page no longer offers the
    form; it reports the token as invalid (not found), not as
    expired. *)
Theorem used_token_is_invalid db now body token pw r now' :
  body_token body = Some token →
  token ≠ "" →
  body_new_password body = Some pw →
  body_confirmPassword body = Some pw →
  (8 ≤ js_length pw)%nat →
  sql_get (token_usable db now token) (rows (password_reset_tokens db))
  = Some r →
  reset_password_page now' (Some token) (reset_password now body db).1
  = ResetPage None false true.
Proof.
  intros Ht Hne Hp Hc Hlen Hr.
  rewrite (reset_password_accepted now body db token pw r) by done.
  unfold reset_password_page.
  rewrite truthy_present, js_or_present by done. simpl.
  assert (∀ P : reset_token → Prop, ∀ Hdec : ∀ r, Decision (P r),
            (∀ r, P r → prt_token r = token) →
            sql_get P
              (sql_delete (λ r', prt_token r' = token)
                 (rows (password_reset_tokens db))) = None) as Hgone.
  { intros P Hdec HP. apply sql_get_None. intros r' Hr' HPr'.
    apply sql_delete_spec in Hr' as [Hr' _]. by apply Hr', HP. }
  rewrite !Hgone by tauto. done.
Qed.

Lemma reset_rejected_void `{PasswordUtils} now body db :
  reset_rejected now body db →
  (reset_password now body db).1 = db
  ∧ ∃ t e x, (reset_password now body db).2 = RenderResetPassword t e x.
Proof.
  intros Hrej.
  destruct (reset_password_rejected now body db Hrej) as (t & e & x & ->).
  simpl. eauto.
Qed.

(** X11.  The page and the submission agree.  With every token row
    pointing at a stored user, either the page of a token shows the
    form and the submission of a confirmed password of 8 characters or
    more is accepted, or the page shows no form and the submission is
    turned down without a change. *)
Theorem reset_page_agrees_with_submission now token pw db :
  tokens_fk db →
  (8 ≤ js_length pw)%nat →
  let body := mk_reset_body token (Some pw) (Some pw) in
  (reset_password_page now token db = ResetPage token false false
   ∧ (reset_password now body db).2 = RedirectTo "/login?reset=success")
  ∨ ((∃ tokenExpired,
         reset_password_page now token db
         = ResetPage None tokenExpired (negb tokenExpired))
     ∧ (reset_password now body db).1 = db
     ∧ ∃ t e x, (reset_password now body db).2 = RenderResetPassword t e x).
Proof.
  intros Hfk Hlen body.
  destruct (truthy token) eqn:Ht.
  - apply truthy_Some in Ht as [Htok Hne].
    set (tok := js_or token "") in *.
    assert (sql_get (token_usable db now tok) (rows (password_reset_tokens db))
            = sql_get
                (λ r, prt_token r = tok
                      ∧ String.ltb (Clock.datetime now) (prt_expires_at r) = true)
                (rows (password_reset_tokens db))) as Hsame.
    { apply sql_get_ext. intros r Hr. unfold token_usable.
      specialize (Hfk r Hr). tauto. }
    destruct (sql_get (token_usable db now tok) _) as [r|] eqn:Hget.
    + left. split.
      * unfold reset_password_page.
        rewrite Htok, truthy_present, js_or_present by done. simpl.
        fold tok. by rewrite <- Hsame.
      * subst body. rewrite Htok.
        by rewrite (reset_password_accepted now _ db tok pw r).
    + right. split; [|apply reset_rejected_void].
      * unfold reset_password_page.
        rewrite Htok, truthy_present, js_or_present by done. simpl.
        fold tok. rewrite <- Hsame.
        eexists. reflexivity.
      * unfold reset_rejected. subst body. simpl. fold tok. auto 10.
  - right. split; [|apply reset_rejected_void].
    + unfold reset_password_page. rewrite Ht. simpl. by exists false.
    + unfold reset_rejected. subst body. simpl. auto.
Qed.

(** X12.  reset-password writes no column of [users] but
    [password_hash]: ids, names and addresses stay, and so do the lock
    and the failure counter, so that a locked account is as locked
    after a reset as before. *)
Theorem reset_password_keeps_lock now body db :
  let db' := (reset_password now body db).1 in
  lock_state <$> users db' = lock_state <$> users db
  ∧ (λ u, (u_id u, u_username u, u_email u)) <$> users db'
    = (λ u, (u_id u, u_username u, u_email u)) <$> users db
  ∧ login_attempts db' = login_attempts db.
Proof.
  unfold reset_password.
  destruct (negb _ || negb _ || negb _); [done|].
  destruct (negb (String.eqb _ _)); [done|].
  destruct (_ <? 8)%nat; [done|].
  destruct (sql_get _ _); [|done]. simpl.
  by rewrite !sql_update_key by done.
Qed.
End ResetLink.

(** ** Registration *)

Section Registration.
Context `{PasswordUtils} `{PasswordPolicy}.

(** The two ways a registration ends. *)
Lemma register_outcome body users_seq db :
  (∃ error,
      register body (users_seq, db)
      = ((users_seq, db), RedirectRegisterError error))
  ∨ (∃ username password email displayName,
        rb_username body = Some username ∧ username ≠ ""
        ∧ rb_password body = Some password ∧ password ≠ ""
        ∧ rb_email body = Some email
        ∧ rb_displayName body = Some displayName ∧ displayName ≠ ""
        ∧ emailRegex_test email = true
        ∧ v_valid (validatePassword password) = true
        ∧ sql_get (λ u, u_username u = username) (users db) = None
        ∧ sql_get (λ u, u_email u = email) (users db) = None
        ∧ register body (users_seq, db)
          = (let i := next_rowid u_id (mk_table (users db) users_seq) in
             ((i,
               with_users
                 (users db
                    ++ [mk_user i username (hashPassword password) email
                          displayName (Some "#000000") None false None 0 None])
                 db),
              RedirectRegisterSuccess username i))).
Proof.
  unfold register. simpl.
  destruct (truthy (rb_username body)) eqn:Hn; [|left; eauto].
  destruct (truthy (rb_password body)) eqn:Hp; [|left; eauto].
  destruct (truthy (rb_email body)) eqn:He; [|left; eauto].
  destruct (truthy (rb_displayName body)) eqn:Hd; [|left; eauto].
  simpl.
  destruct (emailRegex_test _) eqn:Hre; [|left; eauto].
  destruct (v_valid _) eqn:Hv; [|left; eauto]. simpl.
  case_bool_decide as Hname; [left; eauto|].
  case_bool_decide as Hmail; [left; eauto|].
  right.
  apply truthy_Some in Hn as [Hn ?]. apply truthy_Some in Hp as [Hp ?].
  apply truthy_Some in He as [He ?]. apply truthy_Some in Hd as [Hd ?].
  exists (js_or (rb_username body) ""), (js_or (rb_password body) ""),
         (js_or (rb_email body) ""), (js_or (rb_displayName body) "").
  split_and!; try done.
  - by apply eq_None_not_Some.
  - by apply eq_None_not_Some.
Qed.

(** X13.  Registration keeps the keys of [users]: ids, user names and
    addresses that were pairwise different before are so after, and the
    rows that were there are still there, unchanged and in place. *)
Theorem register_keeps_keys body users_seq db :
  users_pk db →
  users_unique db →
  let st' := (register body (users_seq, db)).1 in
  users_pk st'.2
  ∧ users_unique st'.2
  ∧ ∃ added, users st'.2 = users db ++ added ∧ (length added ≤ 1)%nat.
Proof.
  intros Hpk [Hnames Hmails] st'. subst st'.
  destruct (register_outcome body users_seq db)
    as [[error ->]
       |(username & password & email & displayName & _ & _ & _ & _ & _ & _
         & _ & _ & _ & Hname & Hmail & ->)].
  { simpl. split; [done|]. split; [by split|]. exists [].
    split; [by rewrite app_nil_r | simpl; lia]. }
  simpl. unfold users_pk, users_unique. simpl. rewrite !fmap_app. simpl.
  split_and!.
  - apply NoDup_app. split; [done|]. split; [|apply NoDup_singleton].
    intros i Hi Hnew. apply list_elem_of_singleton in Hnew.
    apply list_elem_of_fmap in Hi as (r & -> & Hr).
    pose proof (next_rowid_fresh u_id (mk_table (users db) users_seq) r Hr).
    lia.
  - apply NoDup_app. split; [done|]. split; [|apply NoDup_singleton].
    intros n Hn Hnew. apply list_elem_of_singleton in Hnew.
    apply list_elem_of_fmap in Hn as (r & -> & Hr).
    rewrite sql_get_None in Hname. by apply (Hname r).
  - apply NoDup_app. split; [done|]. split; [|apply NoDup_singleton].
    intros n Hn Hnew. apply list_elem_of_singleton in Hnew.
    apply list_elem_of_fmap in Hn as (r & -> & Hr).
    rewrite sql_get_None in Hmail. by apply (Hmail r).
  - eexists. split; [reflexivity|]. simpl. lia.
Qed.

(** X14.  A registration under a user name or an address that an
    account already has is turned down, and nothing is written. *)
Theorem register_rejects_taken body users_seq db u :
  u ∈ users db →
  rb_username body = Some (u_username u) ∨ rb_email body = Some (u_email u) →
  ∃ error,
    register body (users_seq, db)
    = ((users_seq, db), RedirectRegisterError error).
Proof.
  intros Hu Htaken.
  destruct (register_outcome body users_seq db)
    as [?|(username & password & email & displayName & Hn & _ & _ & _ & He & _
           & _ & _ & _ & Hname & Hmail & _)]; [done|].
  exfalso. rewrite sql_get_None in Hname. rewrite sql_get_None in Hmail.
  destruct Htaken as [Ht|Ht].
  - apply (Hname u Hu). congruence.
  - apply (Hmail u Hu). congruence.
Qed.

(** X15.  An account can be used as soon as it is registered: when
    [comparePassword] accepts a password against its own hash, a login
    with the user name and the password of a registration that
    succeeded succeeds, with a session for the id the registration
    returned.  The new account is not locked and has no failure
    counted. *)
Theorem register_then_login body users_seq db username userId clk req :
  (register body (users_seq, db)).2 = RedirectRegisterSuccess username userId →
  (∀ pw, comparePassword pw (hashPassword pw) = true) →
  body_username req = rb_username body →
  body_password req = rb_password body →
  let db1 := (register body (users_seq, db)).1.2 in
  (∃ u, user_named db1 username = Some u
        ∧ u_id u = userId
        ∧ lock_state u = (false, None, 0))
  ∧ ∃ name,
      (login clk req db1).2
      = RedirectLoginSuccess
          (mk_session_data userId username
             (js_or (rb_displayName body) "") true)
          name.
Proof.
  intros Hok Hlaw Hbn Hbp db1. subst db1.
  destruct (register_outcome body users_seq db)
    as [[error Heq]
       |(uname & password & email & displayName & Hn & Hne & Hp & Hpe & He
         & Hd & Hde & _ & _ & Hname & Hmail & Heq)];
    rewrite Heq in Hok |- *; simpl in Hok; [done|].
  injection Hok as <- <-. simpl.
  set (i := next_rowid u_id (mk_table (users db) users_seq)).
  set (new := mk_user i uname (hashPassword password) email displayName
                (Some "#000000") None false None 0 None).
  assert (user_named (with_users (users db ++ [new]) db) uname = Some new)
    as Hnew.
  { unfold user_named. simpl. rewrite sql_get_app, Hname.
    unfold sql_get. by rewrite filter_cons, decide_True. }
  split; [by exists new|].
  rewrite (login_found clk req _ new);
    [| by rewrite Hbn | by rewrite Hbn, Hn, truthy_present
     | by rewrite Hbp, Hp, truthy_present | done].
  simpl. rewrite Hbp, Hp, js_or_present, Hlaw by done. simpl.
  rewrite Hd, js_or_present by done. eauto.
Qed.
End Registration.

(** ** The profile routes *)

Lemma getCurrentUser_LoggedIn s db i n d e c a :
  getCurrentUser s db = LoggedIn i n d e c a →
  truthy_num s = true
  ∧ ∃ u, sql_get (λ v, u_id v = default 0 s) (users db) = Some u
         ∧ u ∈ users db
         ∧ u_id u = default 0 s
         ∧ i = u_id u ∧ n = u_username u ∧ d = u_display_name u
         ∧ e = u_email u ∧ c = u_profile_color u ∧ a = u_profile_avatar u.
Proof.
  unfold getCurrentUser. destruct (truthy_num s); [|done].
  destruct (sql_get _ _) as [u|] eqn:E; [|done].
  intros [= <- <- <- <- <- <-]. split; [done|]. exists u.
  apply (sql_get_Some (λ v, u_id v = default 0 s)) in E as [? ?]. done.
Qed.

Section Profile.
Context `{PasswordUtils} `{PasswordPolicy}.

(** X16.  change-password writes the hash of the new password for the
    user of the session and nothing else, and only when the current
    password matches the stored hash, the new password passes the
    policy and equals its confirmation; otherwise the database is
    returned as it came.  Unlike reset-password it ends no session and
    withdraws no reset token. *)
Theorem change_password_needs_current session_userId body db :
  let db' := (change_password session_userId body db).1 in
  sessions db' = sessions db
  ∧ password_reset_tokens db' = password_reset_tokens db
  ∧ (db' = db
     ∨ ∃ user newPassword,
         sql_get (λ u, u_id u = default 0 session_userId) (users db) = Some user
         ∧ cp_newPassword body = Some newPassword
         ∧ cp_confirmPassword body = Some newPassword
         ∧ v_valid (validatePassword newPassword) = true
         ∧ comparePassword (js_or (cp_currentPassword body) "")
             (u_password_hash user) = true
         ∧ db' = update_user (default 0 session_userId)
                   (set_password_hash (hashPassword newPassword)) db).
Proof.
  unfold change_password.
  destruct (negb (truthy_num _)); [simpl; auto|].
  destruct (truthy (cp_currentPassword body)) eqn:Hc; [|simpl; auto].
  destruct (truthy (cp_newPassword body)) eqn:Hn; [|simpl; auto].
  destruct (truthy (cp_confirmPassword body)) eqn:Hf; [|simpl; auto].
  simpl negb. simpl orb. cbv iota.
  destruct (String.eqb _ _) eqn:Heq; [|simpl; auto]. simpl negb. cbv iota.
  destruct (v_valid _) eqn:Hv; [|simpl; auto]. simpl negb. cbv iota.
  destruct (sql_get _ _) as [user|] eqn:Hu; [|simpl; auto].
  destruct (comparePassword _ _) eqn:Hcmp; [|simpl; auto].
  simpl. split; [done|]. split; [done|]. right.
  apply String.eqb_eq in Heq.
  apply truthy_Some in Hn as [Hn _]. apply truthy_Some in Hf as [Hf _].
  exists user, (js_or (cp_newPassword body) "").
  split_and!; try done. by rewrite Heq.
Qed.
End Profile.

Section ProfileEmail.
Context `{PasswordUtils}.

(** X17.  update-email keeps the addresses of [users] pairwise
    different, and the ids with them; it changes the address of the
    user of the session only, and that only when the current password
    matches. *)
Theorem update_email_keeps_addresses_unique session_userId body db :
  users_pk db →
  NoDup (u_email <$> users db) →
  let db' := (update_email session_userId body db).1 in
  users_pk db'
  ∧ NoDup (u_email <$> users db')
  ∧ (db' = db
     ∨ ∃ user newEmail,
         sql_get (λ u, u_id u = default 0 session_userId) (users db) = Some user
         ∧ eb_newEmail body = Some newEmail
         ∧ emailRegex_test newEmail = true
         ∧ comparePassword (js_or (eb_currentPassword body) "")
             (u_password_hash user) = true
         ∧ db' = update_user (default 0 session_userId) (set_email newEmail) db).
Proof.
  intros Hpk Hmails. unfold update_email.
  destruct (negb (truthy_num _)); [simpl; auto|].
  destruct (truthy (eb_currentPassword body)) eqn:Hc; [|simpl; auto].
  destruct (truthy (eb_newEmail body)) eqn:Hn; [|simpl; auto].
  simpl negb. simpl orb. cbv iota.
  destruct (sql_get _ _) as [user|] eqn:Hu; [|simpl; auto].
  destruct (comparePassword _ _) eqn:Hcmp; [|simpl; auto].
  simpl negb. cbv iota.
  destruct (emailRegex_test _) eqn:Hre; [|simpl; auto].
  simpl negb. cbv iota.
  case_bool_decide as Hother; [simpl; auto|].
  apply eq_None_not_Some in Hother. rewrite sql_get_None in Hother.
  apply truthy_Some in Hn as [Hn _].
  set (newEmail := js_or (eb_newEmail body) "") in *.
  set (userId := default 0 session_userId) in *.
  simpl. split_and!.
  - by apply update_user_pk.
  - unfold sql_update. rewrite <- list_fmap_compose.
    apply NoDup_fmap_2_strong; [|by eapply NoDup_fmap_1].
    intros x y Hx Hy. simpl.
    destruct (decide (u_id x = userId)) as [Hix|Hix],
             (decide (u_id y = userId)) as [Hiy|Hiy]; simpl; intros Heq.
    + eapply (pk_unique u_id); eauto. congruence.
    + exfalso. apply (Hother y Hy). by split.
    + exfalso. apply (Hother x Hx). by split.
    + by eapply (pk_unique u_email).
  - right. exists user, newEmail. done.
Qed.
End ProfileEmail.

(** X18.  update-avatar takes an avatar from its list or none.  One
    that is not on the list changes nothing and announces nothing.
    Otherwise the avatar is stored for the user of the session ([NULL]
    when none was chosen) and announced to the room, and the avatar
    announced ([👤] when none was chosen) is the one the chat messages
    of that user carry from then on. *)
Theorem update_avatar_announces_what_chat_shows
    session_userId avatar db socket message now :
  truthy_num session_userId = true →
  let res := update_avatar session_userId avatar db in
  let userId := default 0 session_userId in
  if truthy avatar && negb (bool_decide (js_or avatar "" ∈ allowedAvatars))
  then res.1.1 = db ∧ res.2 = None
  else
    ∃ announced,
      res.2 = Some announced
      ∧ au_userId announced = userId
      ∧ au_newAvatar announced = js_or avatar "👤"
      ∧ (∀ u, u ∈ users res.1.1 → u_id u = userId →
              u_profile_avatar u = if truthy avatar then avatar else None)
      ∧ ∀ messageData,
          Message messageData
          ∈ em_payload
              <$> (on_chat_message socket
                     (Some (mk_chat_data (Some message) (Some userId)))
                     now res.1.1).2 →
          md_profile_avatar messageData = au_newAvatar announced.
Proof.
  intros Hs res userId. subst res. unfold update_avatar.
  rewrite Hs. simpl negb. cbv iota. fold userId.
  destruct (truthy avatar && _) eqn:Hbad; [done|].
  simpl. eexists. split; [reflexivity|]. simpl.
  assert (js_or (if truthy avatar then avatar else None) "👤"
          = js_or avatar "👤") as Hglyph.
  { destruct avatar as [a|]; [|done]. simpl.
    destruct (String.eqb a "") eqn:E; simpl; [done|]. by rewrite E. }
  split; [done|]. split; [exact Hglyph|].
  assert (∀ u, u ∈ users (update_user userId
                            (set_profile_avatar
                               (if truthy avatar then avatar else None)) db) →
               u_id u = userId →
               u_profile_avatar u = if truthy avatar then avatar else None)
    as Hrows.
  { intros u Hu Hid. unfold update_user in Hu. simpl in Hu.
    apply sql_update_elem in Hu as (r0 & Hr0 & [[_ ->]|[Hno ->]]); done. }
  split; [exact Hrows|].
  intros md Hmd. unfold on_chat_message in Hmd.
  match type of Hmd with
  | context [if ?c then _ else _] => destruct c
  end; [by apply elem_of_nil in Hmd|].
  destruct (sql_get _ _) as [u|] eqn:Hu; [|by apply elem_of_nil in Hmd].
  apply (sql_get_Some (λ v, u_id v = userId)) in Hu as [Hin Hid].
  simpl in Hmd.
  assert (md_profile_avatar md = js_or (u_profile_avatar u) "👤") as ->.
  { apply elem_of_cons in Hmd as [[= ->]|Hmd]; [done|].
    apply elem_of_cons in Hmd as [[= ->]|Hmd]; [done|].
    by apply elem_of_nil in Hmd. }
  by rewrite (Hrows u Hin Hid), Hglyph.
Qed.

(** ** Comments *)

Lemma delete_cascade_subseteq fuel : ∀ doomed rows c,
  c ∈ delete_cascade fuel doomed rows → c ∈ rows.
Proof.
  induction fuel as [|fuel IH]; intros doomed rows c Hc; [done|].
  simpl in Hc. destruct (filter (λ c, c_id c ∈ doomed) rows); [done|].
  apply IH in Hc. apply list_elem_of_filter in Hc. tauto.
Qed.

Lemma delete_cascade_doomed fuel doomed rows c :
  c ∈ delete_cascade (S fuel) doomed rows → c_id c ∉ doomed.
Proof.
  simpl. destruct (filter (λ c, c_id c ∈ doomed) rows) eqn:E.
  - intros Hc Hd. eapply (filter_nil_not_elem_of (λ c, c_id c ∈ doomed));
      eauto.
  - intros Hc. apply delete_cascade_subseteq in Hc.
    apply list_elem_of_filter in Hc. tauto.
Qed.

Lemma delete_cascade_keeps_top_level fuel : ∀ doomed rows c,
  NoDup (c_id <$> rows) →
  c ∈ rows → c_parent_id c = None → c_id c ∉ doomed →
  c ∈ delete_cascade fuel doomed rows.
Proof.
  induction fuel as [|fuel IH]; intros doomed rows c Hnd Hc Htop Hid; [done|].
  simpl. destruct (filter (λ c, c_id c ∈ doomed) rows) as [|g gone] eqn:E;
    [done|].
  assert (c ∈ filter (λ c0, c_id c0 ∉ doomed) rows) as Hkept
    by by apply list_elem_of_filter.
  apply IH; [| done | done |].
  - eapply sublist_NoDup; [exact Hnd|].
    apply fmap_sublist, sublist_filter.
  - intros Hin. apply list_elem_of_fmap in Hin as (r & Hrid & Hr).
    apply list_elem_of_filter in Hr as [Hpar Hr].
    apply list_elem_of_filter in Hr as [_ Hr].
    assert (r = c) as -> by (eapply (pk_unique c_id); eauto).
    rewrite Htop in Hpar.
    apply list_elem_of_fmap in Hpar as (? & ? & _). done.
Qed.

Local Arguments delete_cascade : simpl never.

(** X19.  Only its author deletes a comment.  The handler either
    leaves the table as it is and answers with a failure (401 without
    a session, 404 without such a comment, 403 for the comment of
    someone else), or the comment exists and belongs to the user of
    the session; then no row with its id is left, nothing is added,
    and, ids being a key, every other comment that is not a reply is
    still there. *)
Theorem delete_comment_only_own session_userId commentId db t :
  let res := delete_comment session_userId commentId db t in
  (res.1 = t ∧ ∃ status message, res.2 = JsonPage status false message
                                 ∧ status ∈ [401; 404; 403])
  ∨ (∃ c n d e pc pa,
        comment_by_id commentId t = Some c
        ∧ getCurrentUser session_userId db
          = LoggedIn (c_user_id c) n d e pc pa
        ∧ res.2 = JsonPage 200 true "Comment deleted successfully"
        ∧ (∀ c', c' ∈ rows res.1 → c' ∈ rows t ∧ c_id c' ≠ c_id c)
        ∧ (comments_pk t →
           ∀ c', c' ∈ rows t → c_parent_id c' = None → c_id c' ≠ c_id c →
                 c' ∈ rows res.1)).
Proof.
  unfold delete_comment.
  destruct (getCurrentUser session_userId db) as [|i n d e pc pa] eqn:Hcur.
  { left. split; [done|]. eexists _, _. split; [reflexivity|]. set_solver. }
  destruct (comment_by_id commentId t) as [c|] eqn:Hc.
  2:{ left. split; [done|]. eexists _, _. split; [reflexivity|]. set_solver. }
  destruct (c_user_id c =? i) eqn:Hown; simpl.
  2:{ left. split; [done|]. eexists _, _. split; [reflexivity|]. set_solver. }
  apply Z.eqb_eq in Hown. subst i. right.
  exists c, n, d, e, pc, pa. split_and!; try done.
  - intros c' Hc'. split; [by eapply delete_cascade_subseteq|].
    apply delete_cascade_doomed in Hc'. intros Heq. apply Hc'.
    rewrite Heq. left.
  - intros Hpk c' Hc' Htop Hne.
    apply delete_cascade_keeps_top_level; [done..|].
    intros Hin. by apply list_elem_of_singleton in Hin.
Qed.

(** X20.  Only its author edits a comment.  The handler either leaves
    the table as it is, or the comment exists, belongs to the user of
    the session, and the trimmed text is not empty; then the rows with
    that id get the trimmed text, the edited mark, one more count and
    the time of the edit, and every other row is as it was. *)
Theorem post_editcomment_only_own session_userId commentId body_text now db t :
  let res := post_editcomment session_userId commentId body_text now db t in
  res.1 = t
  ∨ ∃ c n d e pc pa text,
      comment_by_id commentId t = Some c
      ∧ getCurrentUser session_userId db = LoggedIn (c_user_id c) n d e pc pa
      ∧ body_text = Some text ∧ trim text ≠ ""
      ∧ res.2 = RedirectPage "/comments"
      ∧ length (rows res.1) = length (rows t)
      ∧ (∀ c', c' ∈ rows res.1 →
               (c_id c' ≠ c_id c ∧ c' ∈ rows t)
               ∨ (c_id c' = c_id c ∧ c_text c' = trim text
                  ∧ c_is_edited c' = true
                  ∧ c_updated_at c' = Clock.datetime now
                  ∧ ∃ c0, c0 ∈ rows t ∧ c_id c0 = c_id c
                          ∧ c_user_id c' = c_user_id c0
                          ∧ c_edit_count c' = c_edit_count c0 + 1)).
Proof.
  unfold post_editcomment.
  destruct (getCurrentUser session_userId db) as [|i n d e pc pa] eqn:Hcur;
    [by left|].
  destruct (truthy body_text) eqn:Ht.
  2:{ simpl. by left. }
  apply truthy_Some in Ht as [Ht _].
  set (text := js_or body_text "") in *.
  destruct (String.eqb (trim text) "") eqn:Hempty; [by left|].
  apply String.eqb_neq in Hempty.
  destruct (comment_by_id commentId t) as [c|] eqn:Hc; [|by left].
  destruct (c_user_id c =? i) eqn:Hown; simpl; [|by left].
  apply Z.eqb_eq in Hown. subst i. right.
  assert (commentId = Some (c_id c)) as Hid.
  { unfold comment_by_id in Hc. destruct commentId as [j|]; [|done].
    simpl in Hc. apply (sql_get_Some (λ c, c_id c = j)) in Hc as [_ <-]. done. }
  exists c, n, d, e, pc, pa, text. split_and!; try done.
  - unfold sql_update. by rewrite length_fmap.
  - intros c' Hc'. unfold sql_update in Hc'.
    apply list_elem_of_fmap in Hc' as (c0 & -> & Hc0).
    destruct (decide (Some (c_id c0) = commentId)) as [Heq|Hne].
    + right. simpl. rewrite Hid in Heq. injection Heq as Heq.
      split_and!; try done. exists c0. done.
    + left. split; [|done]. intros Heq. apply Hne. by rewrite Hid, Heq.
Qed.

(** X21.  Adding a comment takes a session and a text that is not
    blank: without a user, or with a text that trimming empties, the
    table stays as it is; otherwise exactly one row is appended, with a
    fresh id, the user of the session as author, the trimmed text, no
    parent and no edit. *)
Theorem post_addcomment_effect session_userId body_text now db t :
  let res := post_addcomment session_userId body_text now db t in
  (res.1 = t
   ∧ (getCurrentUser session_userId db = Guest
      ∨ truthy body_text = false
      ∨ trim (js_or body_text "") = ""))
  ∨ ∃ i n d e pc pa,
      getCurrentUser session_userId db = LoggedIn i n d e pc pa
      ∧ rows res.1
        = rows t
          ++ [mk_comment (next_rowid c_id t) i (trim (js_or body_text ""))
                None false 0 (Clock.datetime now) (Clock.datetime now)]
      ∧ (∀ c, c ∈ rows t → c_id c < next_rowid c_id t)
      ∧ res.2 = RedirectPage "/comments".
Proof.
  unfold post_addcomment.
  destruct (getCurrentUser session_userId db) as [|i n d e pc pa] eqn:Hcur;
    [left; auto|].
  destruct (truthy body_text) eqn:Ht; [|left; auto].
  destruct (String.eqb (trim _) "") eqn:Hempty; simpl.
  - apply String.eqb_eq in Hempty. left. auto.
  - right. exists i, n, d, e, pc, pa. split_and!; try done.
    intros c Hc. by apply next_rowid_fresh.
Qed.

(** ** The chat room, further *)

(** X22.  A socket that joins becomes a member of the room with the
    identity it sent; the membership and the identities of the other
    sockets stay; and [user-joined] goes once to every other member and
    not to the socket that joined. *)
Theorem join_announces_to_the_others st socket data now :
  let res := on_join_chat socket data now st in
  let name := js_or_opt (ud_displayName data) (ud_username data) in
  socket ∈ main_chat res.1
  ∧ userData res.1 !! socket = Some data
  ∧ (∀ c, c ≠ socket →
          (c ∈ main_chat res.1 ↔ c ∈ main_chat st)
          ∧ userData res.1 !! c = userData st !! c)
  ∧ received res.1 socket "user-joined" res.2 = []
  ∧ ∀ c, c ∈ main_chat st → c ≠ socket →
         received res.1 c "user-joined" res.2
         = [Presence name (Clock.toISOString now)].
Proof.
  simpl. split_and!.
  - apply elem_of_union. left. by apply elem_of_singleton.
  - by rewrite lookup_insert_eq.
  - intros c Hne. split; [|by rewrite lookup_insert_ne].
    rewrite elem_of_union, elem_of_singleton. tauto.
  - rewrite received_cons. simpl.
    by rewrite decide_False by (intros [[_ ?] _]; done).
  - intros c Hc Hne. rewrite received_cons. simpl.
    rewrite decide_True; [done|]. split; [|done]. split; [|done].
    apply elem_of_union. by right.
Qed.

(** X23.  The name under which a socket leaves is the name under which
    it last joined: after a join, whatever the room held before, the
    disconnect handler emits [user-left] with the name that this join
    announced. *)
Theorem leave_names_the_last_join st socket data t1 t2 :
  let joined := on_join_chat socket data t1 st in
  let gone := on_disconnect socket t2 joined.1 in
  ∃ name,
    joined.2 = [mk_emission (RoomExcept socket) "user-joined"
                  (Presence name (Clock.toISOString t1))]
    ∧ gone.2 = [mk_emission (RoomExcept socket) "user-left"
                  (Presence name (Clock.toISOString t2))]
    ∧ gone.1 = joined.1.
Proof.
  simpl. unfold on_disconnect. simpl. rewrite lookup_insert_eq. eauto.
Qed.

Lemma sorted_snoc (l : list Z) (y : Z) :
  Sorted.StronglySorted Z.lt l → (∀ x, x ∈ l → x < y) →
  Sorted.StronglySorted Z.lt (l ++ [y]).
Proof.
  induction 1 as [|x l Hl IH Hx]; intros Hy; simpl.
  - repeat constructor.
  - constructor.
    + apply IH. intros z Hz. apply Hy. by right.
    + apply Forall_app. split; [done|].
      apply Forall_singleton. apply Hy. by left.
Qed.

(** X24.  Message ids grow in the order the messages are handled:
    whatever the event, if the ids of [chat_messages] increase along
    the table they still do afterwards, and a message that is accepted
    gets an id above every id in the table and above the last one
    handed out. *)
Theorem chat_message_ids_increase socket data now db :
  ids_increasing cm_id (chat_messages db) →
  let db' := (on_chat_message socket data now db).1 in
  ids_increasing cm_id (chat_messages db')
  ∧ (chat_message_accepted db data →
     ∃ row, rows (chat_messages db') = rows (chat_messages db) ++ [row]
            ∧ seq (chat_messages db) < cm_id row
            ∧ seq (chat_messages db') = cm_id row
            ∧ ∀ r, r ∈ rows (chat_messages db) → cm_id r < cm_id row).
Proof.
  intros Hinc db'. subst db'.
  assert (seq (chat_messages db) < next_rowid cm_id (chat_messages db))
    as Hseq.
  { unfold next_rowid. generalize (cm_id <$> rows (chat_messages db)).
    intros l. induction l as [|x l IH]; simpl; lia. }
  destruct data as [d|]; [|split; [done | intros []]].
  destruct (truthy (data_message d)) eqn:Hm.
  2:{ unfold on_chat_message. rewrite Hm. simpl. split; [done|].
      intros (? & _). congruence. }
  destruct (truthy_num (data_userId d)) eqn:Hi.
  2:{ unfold on_chat_message. rewrite Hm, Hi. simpl. split; [done|].
      intros (_ & ? & _). congruence. }
  destruct (sql_get (λ u, u_id u = default 0 (data_userId d)) (users db))
    as [u|] eqn:Hu.
  2:{ unfold on_chat_message. rewrite Hm, Hi, Hu. simpl. split; [done|].
      intros (_ & _ & [? ?]). congruence. }
  rewrite (on_chat_message_accepted socket d now db u) by done. simpl.
  split.
  - unfold ids_increasing. simpl. rewrite fmap_app. simpl.
    apply sorted_snoc; [done|].
    intros x Hx. apply list_elem_of_fmap in Hx as (r & -> & Hr).
    by apply next_rowid_fresh.
  - intros _. eexists. split; [reflexivity|]. simpl.
    split; [done|]. split; [done|]. intros r Hr. by apply next_rowid_fresh.
Qed.

(** ** The expiry of a reset link *)

Lemma ltb_same_head c a b :
  String.ltb (String c a) (String c b) = String.ltb a b.
Proof.
  unfold String.ltb. simpl.
  assert (Ascii.compare c c = Eq) as -> by apply N.compare_refl.
  done.
Qed.

(** The text of [datetime('now')] sorts below the ISO text of any
    instant of the same day: they agree on the date, and then a space
    meets a ["T"]. *)
Lemma datetime_below_iso_same_day now expiry :
  now / Clock.ms_per_day = expiry / Clock.ms_per_day →
  String.ltb (Clock.datetime now) (Clock.toISOString expiry) = true.
Proof.
  intros Hday. unfold Clock.datetime, Clock.toISOString. rewrite Hday.
  destruct (Clock.civil_from_days (expiry / Clock.ms_per_day)) as [[y m] d].
  unfold Clock.pad4, Clock.pad3, Clock.pad2.
  rewrite !ltb_same_head. reflexivity.
Qed.

Section LinkExpiry.
Context `{Transporter}.

(** X25.  The link does not expire on the hour.  The expiry test
    compares the ISO text of the expiry with the text of
    [datetime('now')]; on the day of the expiry the first always sorts
    above the second, so that the page of a token offers the form at
    every instant of the UTC day on which the token expires, also
    after the hour has passed. *)
Theorem reset_link_lasts_the_day now hex email db u now' :
  email ≠ "" →
  hex ≠ "" →
  sql_get (λ v, u_email v = email) (users db) = Some u →
  now' / Clock.ms_per_day = (now + 3600000) / Clock.ms_per_day →
  let db1 := (forgot_password now hex (Some email) db).1 in
  reset_password_page now' (Some hex) db1 = ResetPage (Some hex) false false
  ∧ ∃ row, sql_get (token_usable db1 now' hex)
             (rows (password_reset_tokens db1)) = Some row
           ∧ prt_user_id row = u_id u.
Proof.
  intros Hne Hhex Hu Hday db1.
  destruct (forgot_password_token_row now hex email db u now')
    as (_ & _ & _ & Husable & Hpage);
    [done | done | by apply datetime_below_iso_same_day |].
  fold db1 in Husable, Hpage. split.
  - unfold reset_password_page.
    rewrite truthy_present, js_or_present by done. simpl negb. cbv iota.
    by rewrite Hpage.
  - eexists. split; [exact Husable|]. done.
Qed.
End LinkExpiry.

Section ChangeThenLogin.
Context `{PasswordUtils} `{PasswordPolicy}.

(** X26.  A changed password is the one that logs in: when
    [comparePassword] accepts a password against its own hash, then
    after a change of password that went through, a login of that
    account (not locked) with the new password succeeds. *)
Theorem change_password_then_login session_userId body db u newPassword clk req :
  users_pk db →
  user_named db (u_username u) = Some u →
  truthy_num session_userId = true →
  default 0 session_userId = u_id u →
  account_locked u = false →
  (∀ pw, comparePassword pw (hashPassword pw) = true) →
  truthy (cp_currentPassword body) = true →
  comparePassword (js_or (cp_currentPassword body) "") (u_password_hash u)
  = true →
  cp_newPassword body = Some newPassword →
  cp_confirmPassword body = Some newPassword →
  newPassword ≠ "" →
  v_valid (validatePassword newPassword) = true →
  body_username req = Some (u_username u) →
  truthy (body_username req) = true →
  body_password req = Some newPassword →
  let res := change_password session_userId body db in
  res.2 = RenderProfile (getCurrentUser session_userId res.1)
            (Some "Password changed successfully!") None
  ∧ (∃ u', user_named res.1 (u_username u) = Some u'
           ∧ u_password_hash u' = hashPassword newPassword)
  ∧ (login clk req res.1).2
    = RedirectLoginSuccess
        (mk_session_data (u_id u) (u_username u) (u_display_name u) true)
        (js_or (Some (u_display_name u)) (u_username u)).
Proof.
  intros Hpk Hu Hs Hid Hact Hlaw Hc Hcmp Hn Hf Hne Hv Hbn Hbt Hbp res.
  destruct (user_named_elem _ _ _ Hu) as [Hin _].
  assert (change_password session_userId body db
          = (update_user (u_id u)
               (set_password_hash (hashPassword newPassword)) db,
             RenderProfile
               (getCurrentUser session_userId
                  (update_user (u_id u)
                     (set_password_hash (hashPassword newPassword)) db))
               (Some "Password changed successfully!") None)) as Heq.
  { unfold change_password.
    rewrite Hs, Hc, Hn, Hf, !truthy_present, !js_or_present by done.
    simpl negb. simpl orb. cbv iota.
    rewrite String.eqb_refl, Hv. simpl negb. cbv iota.
    rewrite Hid, (user_by_id db u) by done. by rewrite Hcmp. }
  subst res. rewrite Heq. simpl.
  pose proof (user_named_update
                (set_password_hash (hashPassword newPassword)) db _ u
                (λ _, eq_refl) Hu) as Hu'.
  split; [done|]. split; [eauto|].
  rewrite (login_found clk req _
             (set_password_hash (hashPassword newPassword) u));
    [| done | done | by rewrite Hbp, truthy_present | done].
  simpl. rewrite Hbp, js_or_present, Hlaw by done. simpl.
  unfold account_locked in Hact.
  destruct (u_is_locked u); [|done].
  destruct (u_lockout_until u); done.
Qed.
End ChangeThenLogin.

(** * The further properties on the sample data *)

Lemma delete_cascade_fk fuel : ∀ doomed rows,
  (length rows < fuel)%nat →
  (∀ c p, c ∈ rows → c_parent_id c = Some p →
          (∃ c', c' ∈ rows ∧ c_id c' = p) ∨ c_id c ∈ doomed) →
  ∀ c p, c ∈ delete_cascade fuel doomed rows → c_parent_id c = Some p →
         ∃ c', c' ∈ delete_cascade fuel doomed rows ∧ c_id c' = p.
Proof.
  induction fuel as [|fuel IH]; intros doomed rows Hlen Hinv; [lia|].
  change (delete_cascade (S fuel) doomed rows)
    with (let gone := filter (λ c, c_id c ∈ doomed) rows in
          match gone with
          | [] => rows
          | _ =>
              let kept := filter (λ c, c_id c ∉ doomed) rows in
              delete_cascade fuel
                (c_id <$> filter (λ c, c_parent_id c
                                       ∈ (Some ∘ c_id <$> gone)) kept)
                kept
          end).
  cbv zeta.
  destruct (filter (λ c, c_id c ∈ doomed) rows) as [|g gone] eqn:E.
  - intros c p Hc Hp. destruct (Hinv c p Hc Hp) as [Hpar|Hd]; [exact Hpar|].
    exfalso. eapply (filter_nil_not_elem_of (λ c, c_id c ∈ doomed)); eauto.
  - rewrite <- E. apply IH.
    + assert (g ∈ rows ∧ c_id g ∈ doomed) as [Hg Hgd].
      { assert (g ∈ filter (λ c, c_id c ∈ doomed) rows) as Hin
          by (rewrite E; left).
        apply list_elem_of_filter in Hin. tauto. }
      pose proof (length_filter_lt (λ c, c_id c ∉ doomed) rows g Hg) as Hlt.
      simpl in Hlt. specialize (Hlt (λ H, H Hgd)). lia.
    + intros c p Hc Hp. apply list_elem_of_filter in Hc as [Hnd Hc].
      destruct (Hinv c p Hc Hp) as [(c' & Hc' & Hid)|Hd]; [|done].
      destruct (decide (c_id c' ∈ doomed)) as [Hd'|Hd'].
      * right. apply list_elem_of_fmap. exists c. split; [done|].
        apply list_elem_of_filter. split; [|by apply list_elem_of_filter].
        rewrite Hp. apply list_elem_of_fmap. exists c'. split.
        -- simpl. by rewrite Hid.
        -- by apply list_elem_of_filter.
      * left. exists c'. split; [|done]. by apply list_elem_of_filter.
Qed.

(** X27.  Deleting a comment leaves no reply without its comment: if
    every [parent_id] of the table pointed at a row of the table
    before the request, it does so afterwards, whatever the outcome;
    and after a deletion that went through no row is left that
    replies to the deleted comment. *)
Theorem delete_comment_keeps_references session_userId commentId db t :
  comments_fk t →
  let res := delete_comment session_userId commentId db t in
  comments_fk res.1
  ∧ ∀ c, comment_by_id commentId t = Some c →
         res.2 = JsonPage 200 true "Comment deleted successfully" →
         ∀ c', c' ∈ rows res.1 →
               c_id c' ≠ c_id c ∧ c_parent_id c' ≠ Some (c_id c).
Proof.
  intros Hfk res.
  assert (comments_fk res.1) as Hfk'.
  { subst res. unfold delete_comment.
    destruct (getCurrentUser session_userId db); [done|].
    destruct (comment_by_id commentId t) as [c|]; [|done].
    destruct (negb _); [done|].
    intros c' p Hc' Hp. simpl in Hc' |- *.
    eapply delete_cascade_fk; [lia | | exact Hc' | exact Hp].
    intros c0 p0 Hc0 Hp0. left. by eapply Hfk. }
  split; [exact Hfk'|].
  intros c Hc Hres.
  assert (∀ c', c' ∈ rows res.1 → c_id c' ≠ c_id c) as Hgone.
  { subst res. unfold delete_comment in *.
    destruct (getCurrentUser session_userId db); [done|].
    rewrite Hc in *. destruct (negb _); [done|].
    intros c' Hc' Hid. simpl in Hc'.
    apply delete_cascade_doomed in Hc'. apply Hc'. rewrite Hid. left. }
  intros c' Hc'. split; [by apply Hgone|].
  intros Hp. destruct (Hfk' c' _ Hc' Hp) as (c0 & Hc0 & Hid).
  by apply (Hgone c0).
Qed.

Section MoreSamples.
Local Existing Instance demo_password_utils.
Local Existing Instance demo_transporter.
Local Existing Instance demo_policy.


(** An unknown name and steve with a wrong password. *)
Lemma login_unknown_user_like_wrong_password_witness :
  user_named demo_db "nobody" = None
  ∧ (login (mk_clock demo_now (demo_now + 90))
       (mk_login_request (Some "nobody") (Some "letmein") None None)
       demo_db).2
    = (login (wrong_login demo_now).1 (wrong_login demo_now).2 demo_db).2.
Proof.
  split; [reflexivity|].
  exact (proj1 (login_unknown_user_like_wrong_password
                  (mk_clock demo_now (demo_now + 90))
                  (mk_login_request (Some "nobody") (Some "letmein") None None)
                  (wrong_login demo_now).1 (wrong_login demo_now).2
                  demo_db steve eq_refl eq_refl eq_refl eq_refl eq_refl
                  ltac:(repeat split))).
Defined.

(** steve, locked, sends no password after the lock has run out. *)
Lemma login_missing_credentials_witness :
  users (login (mk_clock (demo_now + 904090) (demo_now + 904180))
           (mk_login_request (Some "steve") None None None)
           demo_locked_db).1
  = users demo_locked_db.
Proof.
  exact (proj2 (login_missing_credentials
                  (mk_clock (demo_now + 904090) (demo_now + 904180))
                  (mk_login_request (Some "steve") None None None)
                  demo_locked_db (or_intror eq_refl))).
Defined.


(** steve with the right password. *)
Lemma login_success_resets_account_witness :
  user_named demo_db "steve" = Some steve
  ∧ (login (mk_clock demo_now (demo_now + 90))
       (mk_login_request (Some "steve") (Some "steve123") None None)
       demo_db).2
    = RedirectLoginSuccess (mk_session_data 1 "steve" "Steve" true) "Steve".
Proof.
  split; [reflexivity|].
  exact (proj1 (login_success_resets_account
                  (mk_clock demo_now (demo_now + 90))
                  (mk_login_request (Some "steve") (Some "steve123") None None)
                  demo_db steve eq_refl eq_refl eq_refl eq_refl eq_refl
                  (or_introl eq_refl))).
Defined.

(** The transport is down when steve asks for a link. *)
Lemma forgot_password_keeps_token_on_mail_failure_witness :
  er_success
    (@sendPasswordResetEmail demo_dead_transporter "steve@example.com" "aa11"
       (demo_now + 3600000)) = false
  ∧ (@forgot_password demo_dead_transporter demo_now "aa11"
       (Some "steve@example.com") demo_db).2
    = mk_json 500 false "Error sending reset email. Please try again later.".
Proof.
  split; [reflexivity|].
  exact (proj1 (@forgot_password_keeps_token_on_mail_failure
                  demo_dead_transporter demo_now "aa11" "steve@example.com"
                  demo_db steve (demo_now + 5000)
                  ltac:(discriminate) eq_refl eq_refl eq_refl)).
Defined.

Lemma forgot_password_without_account_witness :
  sql_get (λ v, u_email v = "nobody@example.com") (users demo_db) = None
  ∧ (forgot_password demo_now "aa11" (Some "nobody@example.com") demo_db).1
    = demo_db.
Proof.
  split; [reflexivity|].
  exact (proj1 (forgot_password_without_account demo_now "aa11"
                  (Some "nobody@example.com") demo_db (or_intror eq_refl))).
Defined.

(** steve asks for a link, opens it five seconds later and sets a new
    password. *)
Lemma forgot_then_reset_witness :
  sql_get (λ v, u_email v = "steve@example.com") (users demo_db) = Some steve
  ∧ reset_password_page (demo_now + 5000) (Some "aa11")
      (forgot_password demo_now "aa11" (Some "steve@example.com") demo_db).1
    = ResetPage (Some "aa11") false false.
Proof.
  split; [reflexivity|].
  exact (proj1 (forgot_then_reset demo_now "aa11" "steve@example.com" demo_db
                  steve (demo_now + 5000) "Tr0ub4dor&3"
                  ltac:(discriminate) ltac:(discriminate) eq_refl eq_refl
                  ltac:(vm_compute; lia))).
Defined.

Lemma used_token_is_invalid_witness :
  reset_password_page (demo_now + 6000) (Some "aa11")
    (reset_password (demo_now + 5000)
       (mk_reset_body (Some "aa11") (Some "Tr0ub4dor&3") (Some "Tr0ub4dor&3"))
       demo_reset_db).1
  = ResetPage None false true.
Proof.
  exact (used_token_is_invalid demo_reset_db (demo_now + 5000)
           (mk_reset_body (Some "aa11") (Some "Tr0ub4dor&3")
              (Some "Tr0ub4dor&3"))
           "aa11" "Tr0ub4dor&3"
           (mk_reset_token 1 1 "aa11" "2025-12-19T13:34:56.789Z" false
              "2025-12-19 12:34:56")
           (demo_now + 6000)
           eq_refl ltac:(discriminate) eq_refl eq_refl
           ltac:(vm_compute; lia) eq_refl).
Defined.

Lemma reset_page_agrees_with_submission_witness :
  tokens_fk demo_reset_db
  ∧ reset_password_page (demo_now + 5000) (Some "aa11") demo_reset_db
    = ResetPage (Some "aa11") false false
  ∧ (reset_password (demo_now + 5000)
       (mk_reset_body (Some "aa11") (Some "Tr0ub4dor&3") (Some "Tr0ub4dor&3"))
       demo_reset_db).2
    = RedirectTo "/login?reset=success".
Proof.
  assert (tokens_fk demo_reset_db) as Hfk.
  { intros r Hr. apply list_elem_of_singleton in Hr as ->. by exists steve. }
  split; [exact Hfk|].
  destruct (reset_page_agrees_with_submission (demo_now + 5000) (Some "aa11")
              "Tr0ub4dor&3" demo_reset_db Hfk ltac:(vm_compute; lia))
    as [Hboth|[[x Hpage] _]]; [exact Hboth|].
  exfalso. vm_compute in Hpage. discriminate.
Defined.

(** alex registers. *)
Lemma register_keeps_keys_witness :
  users_pk demo_db
  ∧ users_unique demo_db
  ∧ users_pk (register alex_body (2, demo_db)).1.2
  ∧ users_unique (register alex_body (2, demo_db)).1.2.
Proof.
  assert (users_pk demo_db) as Hpk by (unfold users_pk; compute_done).
  assert (users_unique demo_db) as Huniq by (split; compute_done).
  destruct (register_keeps_keys alex_body 2 demo_db Hpk Huniq)
    as (Hpk' & Huniq' & _).
  exact (conj Hpk (conj Huniq (conj Hpk' Huniq'))).
Defined.

(** Someone else wants to be steve. *)
Lemma register_rejects_taken_witness :
  steve ∈ users demo_db
  ∧ ∃ error,
      register
        (mk_register_body (Some "steve") (Some "Tr0ub4dor&3")
           (Some "other@example.com") (Some "Other"))
        (2, demo_db)
      = ((2, demo_db), RedirectRegisterError error).
Proof.
  assert (steve ∈ users demo_db) as Hin by left.
  split; [exact Hin|].
  exact (register_rejects_taken
           (mk_register_body (Some "steve") (Some "Tr0ub4dor&3")
              (Some "other@example.com") (Some "Other"))
           2 demo_db steve Hin (or_introl eq_refl)).
Defined.

(** alex registers and logs in. *)
Lemma register_then_login_witness :
  (register alex_body (2, demo_db)).2 = RedirectRegisterSuccess "alex" 3
  ∧ ∃ name,
      (login (mk_clock demo_now (demo_now + 90))
         (mk_login_request (Some "alex") (Some "Tr0ub4dor&3") None None)
         (register alex_body (2, demo_db)).1.2).2
      = RedirectLoginSuccess (mk_session_data 3 "alex" "Alex" true) name.
Proof.
  split; [reflexivity|].
  exact (proj2 (register_then_login alex_body 2 demo_db "alex" 3
                  (mk_clock demo_now (demo_now + 90))
                  (mk_login_request (Some "alex") (Some "Tr0ub4dor&3")
                     None None)
                  eq_refl (λ pw, String.eqb_refl _) eq_refl eq_refl)).
Defined.

(** steve moves to another address. *)
Lemma update_email_keeps_addresses_unique_witness :
  users_pk demo_db
  ∧ NoDup (u_email <$> users demo_db)
  ∧ NoDup
      (u_email
         <$> users
               (update_email (Some 1)
                  (mk_email_body (Some "steve123") (Some "steve@forum.org"))
                  demo_db).1).
Proof.
  assert (users_pk demo_db) as Hpk by (unfold users_pk; compute_done).
  assert (NoDup (u_email <$> users demo_db)) as Hnd by compute_done.
  split; [exact Hpk|]. split; [exact Hnd|].
  exact (proj1 (proj2 (update_email_keeps_addresses_unique (Some 1)
                         (mk_email_body (Some "steve123")
                            (Some "steve@forum.org"))
                         demo_db Hpk Hnd))).
Defined.

(** john clears his avatar. *)
Lemma update_avatar_announces_what_chat_shows_witness :
  truthy_num (Some 2) = true
  ∧ ∃ announced,
      (update_avatar (Some 2) (Some "") demo_db).2 = Some announced
      ∧ au_newAvatar announced = "👤".
Proof.
  split; [reflexivity|].
  destruct (update_avatar_announces_what_chat_shows (Some 2) (Some "") demo_db
              "sock-B" "hi" demo_now eq_refl)
    as (announced & Hsome & _ & Hglyph & _).
  exists announced. exact (conj Hsome Hglyph).
Defined.

(** steve deletes his comment; john's stays. *)
Lemma delete_comment_only_own_witness :
  comments_pk demo_comments
  ∧ (delete_comment (Some 1) (Some 1) demo_db demo_comments).2
    = JsonPage 200 true "Comment deleted successfully"
  ∧ (delete_comment (Some 1) (Some 2) demo_db demo_comments).1 = demo_comments.
Proof.
  assert (comments_pk demo_comments) as Hpk
    by (unfold comments_pk; compute_done).
  split; [exact Hpk|]. split.
  - destruct (delete_comment_only_own (Some 1) (Some 1) demo_db demo_comments)
      as [[_ (s & m & Hres & _)]|(c & n & d & e & pc & pa & _ & _ & Hres & _)];
      [vm_compute in Hres; discriminate | exact Hres].
  - destruct (delete_comment_only_own (Some 1) (Some 2) demo_db demo_comments)
      as [[Hsame _]|(c & n & d & e & pc & pa & _ & _ & Hres & _)];
      [exact Hsame | vm_compute in Hres; discriminate].
Defined.

(** steve deletes the first comment of the thread: the reply and the
    reply to the reply go with it, the second comment stays. *)
Lemma delete_comment_keeps_references_witness :
  comments_fk demo_thread
  ∧ comments_fk (delete_comment (Some 1) (Some 1) demo_db demo_thread).1
  ∧ c_id <$> rows (delete_comment (Some 1) (Some 1) demo_db demo_thread).1
    = [2].
Proof.
  assert (comments_fk demo_thread) as Hfk.
  { intros c p Hc Hp. simpl in Hc.
    repeat (apply elem_of_cons in Hc as [->|Hc]); simpl in Hp;
      try discriminate; [| |by apply elem_of_nil in Hc];
      injection Hp as <-;
      first [ by eexists; split; [left|]
            | by eexists; split; [do 2 right; left|] ]. }
  split; [exact Hfk|]. split; [|by vm_compute].
  exact (proj1 (delete_comment_keeps_references (Some 1) (Some 1) demo_db
                  demo_thread Hfk)).
Defined.

(** john tries to edit steve's comment. *)
Lemma post_editcomment_only_own_witness :
  (post_editcomment (Some 2) (Some 1) (Some "mine now") demo_now demo_db
     demo_comments).1
  = demo_comments.
Proof.
  destruct (post_editcomment_only_own (Some 2) (Some 1) (Some "mine now")
              demo_now demo_db demo_comments)
    as [Hsame|(c & n & d & e & pc & pa & text & Hc & Hcur & _)];
    [exact Hsame|].
  exfalso. vm_compute in Hc. injection Hc as <-.
  vm_compute in Hcur. discriminate.
Defined.

(** Two messages in a row. *)
Lemma chat_message_ids_increase_witness :
  ids_increasing cm_id (chat_messages demo_db)
  ∧ ids_increasing cm_id
      (chat_messages
         (on_chat_message "sock-B" (Some (mk_chat_data (Some "ho") (Some 2)))
            (demo_now + 1000)
            (on_chat_message "sock-A"
               (Some (mk_chat_data (Some "hi") (Some 1))) demo_now demo_db).1).1).
Proof.
  assert (ids_increasing cm_id (chat_messages demo_db)) as H0 by constructor.
  split; [exact H0|].
  exact (proj1 (chat_message_ids_increase "sock-B"
                  (Some (mk_chat_data (Some "ho") (Some 2))) (demo_now + 1000)
                  _
                  (proj1 (chat_message_ids_increase "sock-A"
                            (Some (mk_chat_data (Some "hi") (Some 1)))
                            demo_now demo_db H0)))).
Defined.

(** Two hours after steve asked for it, the link still opens. *)
Lemma reset_link_lasts_the_day_witness :
  (demo_now + 2 * 3600000) / Clock.ms_per_day
  = (demo_now + 3600000) / Clock.ms_per_day
  ∧ demo_now + 3600000 < demo_now + 2 * 3600000
  ∧ reset_password_page (demo_now + 2 * 3600000) (Some "aa11") demo_reset_db
    = ResetPage (Some "aa11") false false.
Proof.
  split; [reflexivity|]. split; [reflexivity|].
  exact (proj1 (reset_link_lasts_the_day demo_now "aa11" "steve@example.com"
                  demo_db steve (demo_now + 2 * 3600000)
                  ltac:(discriminate) ltac:(discriminate) eq_refl eq_refl)).
Defined.

(** steve changes his password and logs in with the new one. *)
Lemma change_password_then_login_witness :
  users_pk demo_db
  ∧ (login (mk_clock (demo_now + 1000) (demo_now + 1090))
       (mk_login_request (Some "steve") (Some "Tr0ub4dor&3") None None)
       (change_password (Some 1)
          (mk_change_password_body (Some "steve123") (Some "Tr0ub4dor&3")
             (Some "Tr0ub4dor&3"))
          demo_db).1).2
    = RedirectLoginSuccess (mk_session_data 1 "steve" "Steve" true) "Steve".
Proof.
  assert (users_pk demo_db) as Hpk by (unfold users_pk; compute_done).
  split; [exact Hpk|].
  exact (proj2 (proj2 (change_password_then_login (Some 1)
                         (mk_change_password_body (Some "steve123")
                            (Some "Tr0ub4dor&3") (Some "Tr0ub4dor&3"))
                         demo_db steve "Tr0ub4dor&3"
                         (mk_clock (demo_now + 1000) (demo_now + 1090))
                         (mk_login_request (Some "steve") (Some "Tr0ub4dor&3")
                            None None)
                         Hpk eq_refl eq_refl eq_refl eq_refl
                         (λ pw, String.eqb_refl _) eq_refl eq_refl eq_refl
                         eq_refl ltac:(discriminate) eq_refl eq_refl eq_refl
                         eq_refl))).
Defined.
End MoreSamples.
